(** * ollama-openrouter-proxy: image detection, message normalisation,
      alias resolution and stream translation.

    Shallow embedding of [provider.go] and of the [/api/chat] and
    [/api/generate] handlers of [main.go].  Go strings are byte sequences:
    they are modelled by [string], whose characters are 8-bit [ascii]. *)

From Stdlib Require Import Ascii String List ZArith Lia Bool.
From stdpp Require Import base option list strings gmap.

Local Open Scope string_scope.
Local Open Scope list_scope.

(** ** Go's [strings] package: the functions the program calls *)

Module strings.

(** [strings.HasPrefix(s, prefix)]. *)
Definition HasPrefix (s pre : string) : bool := String.prefix pre s.

(** [strings.Contains(s, substr)]: [substr] occurs at some offset of [s]. *)
Fixpoint Contains (s substr : string) : bool :=
  if String.prefix substr s then true
  else match s with
       | EmptyString => false
       | String _ s' => Contains s' substr
       end.

(** Reversal of a byte string, used for everything that works from the
    end of a string. *)
Fixpoint rev_app (s acc : string) : string :=
  match s with
  | EmptyString => acc
  | String c s' => rev_app s' (String c acc)
  end.

Definition rev (s : string) : string := rev_app s EmptyString.

(** [strings.HasSuffix(s, suffix)]:
    [len(s) >= len(suffix) && s[len(s)-len(suffix):] == suffix]. *)
Definition HasSuffix (s suf : string) : bool :=
  Nat.leb (String.length suf) (String.length s)
  && String.eqb
       (String.substring (String.length s - String.length suf)
          (String.length suf) s)
       suf.

(** The six ASCII white-space bytes: tab, LF, VT, FF, CR, space. *)
Definition asciiSpace (c : ascii) : bool :=
  let n := nat_of_ascii c in
  (Nat.leb 9 n && Nat.leb n 13) || Nat.eqb n 32.

(** The two-byte UTF-8 encodings of white-space runes:
    U+0085 = C2 85 and U+00A0 = C2 A0. *)
Definition space2 (b0 b1 : ascii) : bool :=
  Nat.eqb (nat_of_ascii b0) 194
  && (Nat.eqb (nat_of_ascii b1) 133 || Nat.eqb (nat_of_ascii b1) 160).

(** The three-byte encodings: U+1680 = E1 9A 80, U+2000..U+200A =
    E2 80 80..8A, U+2028 = E2 80 A8, U+2029 = E2 80 A9, U+202F = E2 80 AF,
    U+205F = E2 81 9F, U+3000 = E3 80 80. *)
Definition space3 (b0 b1 b2 : ascii) : bool :=
  let n0 := nat_of_ascii b0 in
  let n1 := nat_of_ascii b1 in
  let n2 := nat_of_ascii b2 in
  (Nat.eqb n0 225 && Nat.eqb n1 154 && Nat.eqb n2 128)
  || (Nat.eqb n0 226 && Nat.eqb n1 128
      && ((Nat.leb 128 n2 && Nat.leb n2 138) || Nat.eqb n2 168
          || Nat.eqb n2 169 || Nat.eqb n2 175))
  || (Nat.eqb n0 226 && Nat.eqb n1 129 && Nat.eqb n2 159)
  || (Nat.eqb n0 227 && Nat.eqb n1 128 && Nat.eqb n2 128).

(** Removal of the white-space runes at the front of a string.  The two
    predicates say which two- and three-byte sequences encode a
    white-space rune, read in the direction of the scan. *)
Section Trim.
Variable sp2 : ascii -> ascii -> bool.
Variable sp3 : ascii -> ascii -> ascii -> bool.

(** Number of bytes of the white-space rune the string starts with,
    [0] when it starts with none. *)
Definition spaceWidth (s : string) : nat :=
  match s with
  | EmptyString => 0
  | String c0 s1 =>
      if asciiSpace c0 then 1
      else match s1 with
           | EmptyString => 0
           | String c1 s2 =>
               if sp2 c0 c1 then 2
               else match s2 with
                    | EmptyString => 0
                    | String c2 _ => if sp3 c0 c1 c2 then 3 else 0
                    end
           end
  end.

Fixpoint trimFront (s : string) : string :=
  match s with
  | EmptyString => EmptyString
  | String c0 s1 =>
      if asciiSpace c0 then trimFront s1
      else match s1 with
           | EmptyString => s
           | String c1 s2 =>
               if sp2 c0 c1 then trimFront s2
               else match s2 with
                    | EmptyString => s
                    | String c2 s3 =>
                        if sp3 c0 c1 c2 then trimFront s3 else s
                    end
           end
  end.
End Trim.

(** [strings.TrimLeftFunc(s, unicode.IsSpace)]. *)
Definition TrimLeft (s : string) : string := trimFront space2 space3 s.

(** [strings.TrimRightFunc(s, unicode.IsSpace)]: the same scan from the
    end, where an encoding is met last byte first. *)
Definition TrimRight (s : string) : string :=
  rev (trimFront (fun b1 b0 => space2 b0 b1)
                 (fun b2 b1 b0 => space3 b0 b1 b2) (rev s)).

(** [strings.TrimSpace(s)]: all leading and trailing white space removed,
    as defined by Unicode. *)
Definition TrimSpace (s : string) : string := TrimRight (TrimLeft s).

End strings.

(** Go's built-in [len] on strings. *)
Definition len (s : string) : nat := String.length s.

(** Go's [int] is 64 bits wide on the supported platforms: arithmetic wraps
    around in two's complement. *)
Definition wrap64 (z : Z) : Z :=
  ((z + 2 ^ 63) mod 2 ^ 64 - 2 ^ 63)%Z.

(** A Go call that returns [(value, error)]: the error is modelled by its
    message, the text [err.Error()] returns. *)
Inductive result (A : Type) : Type :=
| Ok (a : A)
| Error (msg : string).
Arguments Ok {A} a.
Arguments Error {A} msg.

(** ** The types of [github.com/sashabaranov/go-openai] the program uses *)

Module openai.

Definition ChatMessageRoleUser : string := "user".
Definition ChatMessageRoleSystem : string := "system".

Inductive ChatMessagePartType : Type :=
| ChatMessagePartTypeText
| ChatMessagePartTypeImageURL.

Module ChatMessageImageURL.
Record t : Type := mk { URL : string }.
End ChatMessageImageURL.

Module ChatMessagePart.
Record t : Type := mk {
  Type_ : ChatMessagePartType;
  Text : string;
  ImageURL : option ChatMessageImageURL.t
}.
End ChatMessagePart.

Module ChatCompletionMessage.
Record t : Type := mk {
  Role : string;
  Content : string;
  MultiContent : list ChatMessagePart.t
}.
End ChatCompletionMessage.

Module ChatCompletionRequest.
Record t : Type := mk {
  Model : string;
  Messages : list ChatCompletionMessage.t;
  Stream : bool
}.
End ChatCompletionRequest.

Module Usage.
Record t : Type := mk {
  PromptTokens : Z;
  CompletionTokens : Z;
  TotalTokens : Z
}.
End Usage.

Module ChatCompletionChoice.
Record t : Type := mk {
  Message : ChatCompletionMessage.t;
  FinishReason : string
}.
End ChatCompletionChoice.

Module ChatCompletionResponse.
Record t : Type := mk {
  Choices : list ChatCompletionChoice.t;
  Usage : Usage.t
}.
End ChatCompletionResponse.

Module ChatCompletionStreamChoiceDelta.
Record t : Type := mk { Content : string }.
End ChatCompletionStreamChoiceDelta.

Module ChatCompletionStreamChoice.
Record t : Type := mk {
  Delta : ChatCompletionStreamChoiceDelta.t;
  FinishReason : string
}.
End ChatCompletionStreamChoice.

Module ChatCompletionStreamResponse.
Record t : Type := mk { Choices : list ChatCompletionStreamChoice.t }.
End ChatCompletionStreamResponse.

(** How a stream ends: with [io.EOF], or with another error. *)
Inductive StreamEnd : Type :=
| EOF
| StreamError (msg : string).

(** An open [ChatCompletionStream]: the events the upstream still has to
    deliver, and the way the stream ends after them. *)
Module ChatCompletionStream.
Record t : Type := mk {
  pending : list ChatCompletionStreamResponse.t;
  ending : StreamEnd
}.

(** [stream.Recv()]: the next event, or the error that ends the stream. *)
Definition Recv (s : t) : (ChatCompletionStreamResponse.t + StreamEnd) * t :=
  match pending s with
  | response :: rest => (inl response, mk rest (ending s))
  | [] => (inr (ending s), s)
  end.
End ChatCompletionStream.

(** The upstream, as the client sees it during one request. *)
Module Client.
Record t : Type := mk {
  ListModels : result (list string);
  CreateChatCompletion :
    ChatCompletionRequest.t -> result ChatCompletionResponse.t;
  CreateChatCompletionStream :
    ChatCompletionRequest.t -> result ChatCompletionStream.t
}.
End Client.

End openai.

Import openai.

(** A text content part and an image content part, as the program builds
    them. *)
Definition TextPart (text : string) : ChatMessagePart.t :=
  ChatMessagePart.mk ChatMessagePartTypeText text None.

Definition ImagePart (url : string) : ChatMessagePart.t :=
  ChatMessagePart.mk ChatMessagePartTypeImageURL ""
    (Some (ChatMessageImageURL.mk url)).

(** ** provider.go *)

(** [formatImageForAPI]: the data URL sent upstream for a base64 image. *)
Definition formatImageForAPI (imgBase64 : string) : string :=
  if Nat.eqb (len imgBase64) 0 then ""
  else
    let imgBase64 := strings.TrimSpace imgBase64 in
    if strings.HasPrefix imgBase64 "data:image/"
       && strings.Contains imgBase64 ";base64,"
    then imgBase64
    else if strings.HasPrefix imgBase64 "/9j/"
    then "data:image/jpeg;base64," ++ imgBase64
    else if strings.HasPrefix imgBase64 "iVBOR"
    then "data:image/png;base64," ++ imgBase64
    else if strings.HasPrefix imgBase64 "R0lGOD"
    then "data:image/gif;base64," ++ imgBase64
    else if strings.HasPrefix imgBase64 "UklGR"
    then "data:image/webp;base64," ++ imgBase64
    else "data:image/jpeg;base64," ++ imgBase64.


(** [strings.Split(s, "/")]: the pieces of [s] between slashes; never
    empty. *)
Fixpoint SplitSlash (s : string) : list string :=
  match s with
  | EmptyString => [EmptyString]
  | String c s' =>
      if Ascii.eqb c "/"%char then EmptyString :: SplitSlash s'
      else match SplitSlash s' with
           | part :: parts => String c part :: parts
           | [] => [String c EmptyString]
           end
  end.

Module ModelDetails.
Record t : Type := mk {
  ParentModel : string;
  Format : string;
  Family : string;
  Families : list string;
  ParameterSize : string;
  QuantizationLevel : string
}.
End ModelDetails.

Module Model.
Record t : Type := mk {
  Name : string;
  Model : string;
  ModifiedAt : string;
  Size : Z;
  Digest : string;
  Details : ModelDetails.t
}.
End Model.

(** The provider: the upstream client and the catalog cache. *)
Module OpenrouterProvider.
Record t : Type := mk {
  client : Client.t;
  modelNames : list string
}.
End OpenrouterProvider.

Import OpenrouterProvider.

(** [(o *OpenrouterProvider) Chat]. *)
Definition Chat (o : OpenrouterProvider.t)
    (messages : list ChatCompletionMessage.t) (modelName : string)
  : result ChatCompletionResponse.t :=
  let req := ChatCompletionRequest.mk modelName messages false in
  Client.CreateChatCompletion (client o) req.

(** [(o *OpenrouterProvider) ChatStream]; the logging loop has no effect on
    the request. *)
Definition ChatStream (o : OpenrouterProvider.t)
    (messages : list ChatCompletionMessage.t) (modelName : string)
  : result ChatCompletionStream.t :=
  let req := ChatCompletionRequest.mk modelName messages true in
  Client.CreateChatCompletionStream (client o) req.

(** The image loop of [Generate] and [GenerateStream]: one image part per
    image, an empty image skipped. *)
Definition appendImages (contentItems : list ChatMessagePart.t)
    (images : list string) : list ChatMessagePart.t :=
  fold_left
    (fun contentItems imgBase64 =>
       if Nat.eqb (len imgBase64) 0 then contentItems
       else
         let formattedURL := formatImageForAPI imgBase64 in
         contentItems ++ [ImagePart formattedURL])
    images contentItems.

(** The messages [Generate] and [GenerateStream] send; both functions build
    them with the same code. *)
Definition generateMessages (prompt systemPrompt : string)
    (images : list string) : list ChatCompletionMessage.t :=
  let messages := [ChatCompletionMessage.mk ChatMessageRoleUser prompt []] in
  let messages :=
    if negb (String.eqb systemPrompt "")
    then [ChatCompletionMessage.mk ChatMessageRoleSystem systemPrompt []]
           ++ messages
    else messages in
  if Nat.ltb 0 (length images)
  then
    let contentItems := [] ++ [TextPart prompt] in
    let contentItems := appendImages contentItems images in
    <[length messages - 1 :=
        ChatCompletionMessage.mk ChatMessageRoleUser "" contentItems]>
      messages
  else messages.

(** [(o *OpenrouterProvider) Generate]. *)
Definition Generate (o : OpenrouterProvider.t) (prompt modelName : string)
    (systemPrompt : string) (images : list string)
  : result ChatCompletionResponse.t :=
  let messages := generateMessages prompt systemPrompt images in
  let req := ChatCompletionRequest.mk modelName messages false in
  Client.CreateChatCompletion (client o) req.

(** [(o *OpenrouterProvider) GenerateStream]. *)
Definition GenerateStream (o : OpenrouterProvider.t)
    (prompt modelName : string) (systemPrompt : string)
    (images : list string) : result ChatCompletionStream.t :=
  let messages := generateMessages prompt systemPrompt images in
  let req := ChatCompletionRequest.mk modelName messages true in
  Client.CreateChatCompletionStream (client o) req.

(** The catalog entry [GetModels] builds for one upstream identifier. *)
Definition modelOf (currentTime : string) (ID : string) : Model.t :=
  let parts := SplitSlash ID in
  let name := List.last parts "" in
  Model.mk name name currentTime 0 name
    (ModelDetails.mk "" "gguf" "claude" ["claude"] "175B" "Q4_K_M").

(** [(o *OpenrouterProvider) GetModels]: the result and the provider after
    the call.  [currentTime] is the formatted reading of the clock. *)
Definition GetModels (o : OpenrouterProvider.t) (currentTime : string)
  : result (list Model.t) * OpenrouterProvider.t :=
  match Client.ListModels (client o) with
  | Error err => (Error err, o)
  | Ok modelsResponse =>
      let o := OpenrouterProvider.mk (client o) [] in
      let '(models, o) :=
        fold_left
          (fun '(models, o) ID =>
             (models ++ [modelOf currentTime ID],
              OpenrouterProvider.mk (client o) (modelNames o ++ [ID])))
          modelsResponse ([], o) in
      (Ok models, o)
  end.

(** [(o *OpenrouterProvider) GetFullModelName]. *)
Definition GetFullModelName (o : OpenrouterProvider.t) (currentTime : string)
    (alias : string) : result string * OpenrouterProvider.t :=
  let '(fetch, o) :=
    if Nat.eqb (length (modelNames o)) 0
    then GetModels o currentTime
    else (Ok [], o) in
  match fetch with
  | Error err => (Error ("failed to get models: " ++ err), o)
  | Ok _ =>
      match List.find (fun fullName => String.eqb fullName alias)
                      (modelNames o) with
      | Some fullName => (Ok fullName, o)
      | None =>
          match List.find (fun fullName => strings.HasSuffix fullName alias)
                          (modelNames o) with
          | Some fullName => (Ok fullName, o)
          | None => (Ok alias, o)
          end
      end
  end.

(** ** main.go *)

(** The JSON values the handlers marshal.  A Go map marshals to a JSON
    object: it is kept as the finite map it is. *)
#[local] Unset Elimination Schemes.
Inductive JSON : Type :=
| JString (s : string)
| JBool (b : bool)
| JNumber (n : Z)
| JArray (items : list JSON)
| JObject (fields : gmap string JSON).
#[local] Set Elimination Schemes.

(** One line of an NDJSON response, and the body of a JSON response: a
    [map[string]interface{}] (or [gin.H]). *)
Abbreviation Envelope := (gmap string JSON).

(** What a handler has done when it stops. *)
Inductive HandlerResult : Type :=
| RespondJSON (status : nat) (body : Envelope)
    (** [c.JSON(status, body)] and return *)
| Streamed (lines : list Envelope)
    (** NDJSON headers set, [lines] written and flushed, handler returned *)
| Panicked (lines : list Envelope).
    (** run-time panic (index out of range) after [lines] were written *)

Definition StatusOK : nat := 200.
Definition StatusNotFound : nat := 404.
Definition StatusInternalServerError : nat := 500.

Module MessageWithImages.
Record t : Type := mk {
  Role : string;
  Content : string;
  Images : list string
}.
End MessageWithImages.

Module CustomChatRequest.
Record t : Type := mk {
  Model : string;
  Messages : list MessageWithImages.t;
  Stream : option bool;
  Images : list string
}.
End CustomChatRequest.

Module GenerateRequest.
Record t : Type := mk {
  Model : string;
  Prompt : string;
  System : string;
  Stream : option bool;
  Images : list string
}.
End GenerateRequest.

(** A list with its indices, as [for i, x := range l] visits it. *)
Definition enumerate {A : Type} (l : list A) : list (nat * A) :=
  combine (seq 0 (length l)) l.

(** [/api/chat], "Convert custom messages to standard messages". *)
Definition convertMessages (customMessages : list MessageWithImages.t)
  : list ChatCompletionMessage.t :=
  fold_left
    (fun messages customMsg =>
       let stdMsg :=
         ChatCompletionMessage.mk (MessageWithImages.Role customMsg)
           (MessageWithImages.Content customMsg) [] in
       messages ++ [stdMsg])
    customMessages [].

(** [/api/chat], "Process images in messages from our custom parser". *)
Definition processMessageImages (customMessages : list MessageWithImages.t)
    (messages : list ChatCompletionMessage.t)
  : list ChatCompletionMessage.t :=
  fold_left
    (fun messages '(i, customMsg) =>
       if negb (String.eqb (MessageWithImages.Role customMsg)
                  ChatMessageRoleUser)
          || Nat.eqb (length (MessageWithImages.Images customMsg)) 0
       then messages
       else
         match messages !! i with
         | None => messages
         | Some msg =>
             let prompt := ChatCompletionMessage.Content msg in
             let contentItems := [] ++ [TextPart prompt] in
             let contentItems :=
               fold_left
                 (fun contentItems imgBase64 =>
                    if Nat.eqb (len imgBase64) 0 then contentItems
                    else
                      let formattedURL := formatImageForAPI imgBase64 in
                      contentItems ++ [ImagePart formattedURL])
                 (MessageWithImages.Images customMsg) contentItems in
             <[i := ChatCompletionMessage.mk
                      (ChatCompletionMessage.Role msg) "" contentItems]>
               messages
         end)
    (enumerate customMessages) messages.

(** [/api/chat], "Find the last user message": the scan
    [for i := n - 1; i >= 0; i--]; [None] is the source's [-1]. *)
Fixpoint lastUserMsgIndexFrom (messages : list ChatCompletionMessage.t)
    (n : nat) : option nat :=
  match n with
  | 0 => None
  | S i =>
      match messages !! i with
      | Some msg =>
          if String.eqb (ChatCompletionMessage.Role msg) ChatMessageRoleUser
          then Some i
          else lastUserMsgIndexFrom messages i
      | None => lastUserMsgIndexFrom messages i
      end
  end.

Definition lastUserMsgIndex (messages : list ChatCompletionMessage.t)
  : option nat :=
  lastUserMsgIndexFrom messages (length messages).

(** [/api/chat], "Process images if present in the top-level request and add
    them to the last user message". *)
Definition processTopLevelImages (images : list string)
    (messages : list ChatCompletionMessage.t)
  : list ChatCompletionMessage.t :=
  if Nat.ltb 0 (length images) && Nat.ltb 0 (length messages)
  then
    match lastUserMsgIndex messages with
    | None => messages
    | Some lastUserMsgIndex =>
        match messages !! lastUserMsgIndex with
        | None => messages
        | Some userMsg =>
            let prompt := ChatCompletionMessage.Content userMsg in
            let contentItems :=
              if Nat.ltb 0 (length (ChatCompletionMessage.MultiContent userMsg))
              then ChatCompletionMessage.MultiContent userMsg
              else [] ++ [TextPart prompt] in
            let contentItems :=
              fold_left
                (fun contentItems imgBase64 =>
                   contentItems ++ [ImagePart (formatImageForAPI imgBase64)])
                images contentItems in
            <[lastUserMsgIndex :=
                ChatCompletionMessage.mk (ChatCompletionMessage.Role userMsg)
                  "" contentItems]>
              messages
        end
    end
  else messages.

(** The messages [/api/chat] sends upstream for a parsed request. *)
Definition chatMessages (customRequest : CustomChatRequest.t)
  : list ChatCompletionMessage.t :=
  let messages := convertMessages (CustomChatRequest.Messages customRequest) in
  let messages :=
    processMessageImages (CustomChatRequest.Messages customRequest) messages in
  processTopLevelImages (CustomChatRequest.Images customRequest) messages.

(** [streamRequested := true; if request.Stream != nil { streamRequested =
    *request.Stream }]. *)
Definition streamRequestedOf (stream : option bool) : bool :=
  match stream with
  | Some requested => requested
  | None => true
  end.

(** The parts of the two handlers that run once the request is parsed.
    [now k] is the formatted reading of the clock while [k] lines have been
    written. *)
Section Handlers.
Variable now : nat -> string.

(** [gin.H{"error": msg}]. *)
Definition errorBody (msg : string) : Envelope :=
  {[ "error" := JString msg ]}.

(** The line written when [stream.Recv()] fails in mid-stream. *)
Definition streamErrorLine (msg : string) : Envelope :=
  {[ "error" := JString ("Stream error: " ++ msg) ]}.

(** The finish reason remembered after one more event. *)
Definition rememberFinishReason (lastFinishReason : string)
    (response : ChatCompletionStreamResponse.t) : string :=
  match ChatCompletionStreamResponse.Choices response with
  | choice0 :: _ =>
      if negb (String.eqb (ChatCompletionStreamChoice.FinishReason choice0) "")
      then ChatCompletionStreamChoice.FinishReason choice0
      else lastFinishReason
  | [] => lastFinishReason
  end.

(** [/api/chat]: the line for an intermediate chunk. *)
Definition chatChunk (fullModelName createdAt content : string) : Envelope :=
  <[ "model" := JString fullModelName ]>
  (<[ "created_at" := JString createdAt ]>
  (<[ "message" :=
        JObject (<[ "role" := JString "assistant" ]>
                 {[ "content" := JString content ]}) ]>
  {[ "done" := JBool false ]})).

(** [/api/chat]: the final line. *)
Definition chatFinal (fullModelName createdAt lastFinishReason : string)
  : Envelope :=
  <[ "model" := JString fullModelName ]>
  (<[ "created_at" := JString createdAt ]>
  (<[ "message" :=
        JObject (<[ "role" := JString "assistant" ]>
                 {[ "content" := JString "" ]}) ]>
  (<[ "done" := JBool true ]>
  (<[ "finish_reason" := JString lastFinishReason ]>
  (<[ "total_duration" := JNumber 0 ]>
  (<[ "load_duration" := JNumber 0 ]>
  (<[ "prompt_eval_count" := JNumber 0 ]>
  (<[ "eval_count" := JNumber 0 ]>
  {[ "eval_duration" := JNumber 0 ]})))))))).

(** [/api/chat]: the streaming loop and what follows it.  Each round is
    one [stream.Recv()]: an event, [io.EOF], or another error. *)
Fixpoint chatStreamLoop (fullModelName : string)
    (pending : list ChatCompletionStreamResponse.t) (ending : StreamEnd)
    (lastFinishReason : string) (w : list Envelope) : HandlerResult :=
  match pending with
  | [] =>
      match ending with
      | EOF =>
          let lastFinishReason :=
            if String.eqb lastFinishReason "" then "stop"
            else lastFinishReason in
          let finalResponse :=
            chatFinal fullModelName (now (length w)) lastFinishReason in
          Streamed (w ++ [finalResponse])
      | StreamError err => Streamed (w ++ [streamErrorLine err])
      end
  | response :: pending =>
      let lastFinishReason := rememberFinishReason lastFinishReason response in
      match ChatCompletionStreamResponse.Choices response with
      | [] => Panicked w
      | choice0 :: _ =>
          let responseJSON :=
            chatChunk fullModelName (now (length w))
              (ChatCompletionStreamChoiceDelta.Content
                 (ChatCompletionStreamChoice.Delta choice0)) in
          chatStreamLoop fullModelName pending ending lastFinishReason
            (w ++ [responseJSON])
      end
  end.

(** [/api/generate]: the line for an intermediate chunk. *)
Definition generateChunk (fullModelName createdAt content : string)
  : Envelope :=
  <[ "model" := JString fullModelName ]>
  (<[ "created_at" := JString createdAt ]>
  (<[ "response" := JString content ]>
  {[ "done" := JBool false ]})).

(** [/api/generate]: the final line. *)
Definition generateFinal (fullModelName createdAt lastFinishReason : string)
  : Envelope :=
  <[ "model" := JString fullModelName ]>
  (<[ "created_at" := JString createdAt ]>
  (<[ "response" := JString "" ]>
  (<[ "done" := JBool true ]>
  (<[ "done_reason" := JString lastFinishReason ]>
  (<[ "context" := JArray [JNumber 1; JNumber 2; JNumber 3] ]>
  (<[ "total_duration" := JNumber 1000000000 ]>
  (<[ "load_duration" := JNumber 5000000 ]>
  (<[ "prompt_eval_count" := JNumber 20 ]>
  (<[ "prompt_eval_duration" := JNumber 200000000 ]>
  (<[ "eval_count" := JNumber 100 ]>
  {[ "eval_duration" := JNumber 800000000 ]})))))))))).

(** [/api/generate]: the streaming loop and what follows it. *)
Fixpoint generateStreamLoop (fullModelName : string)
    (pending : list ChatCompletionStreamResponse.t) (ending : StreamEnd)
    (lastFinishReason : string) (w : list Envelope) : HandlerResult :=
  match pending with
  | [] =>
      match ending with
      | EOF =>
          let lastFinishReason :=
            if String.eqb lastFinishReason "" then "stop"
            else lastFinishReason in
          let finalResponse :=
            generateFinal fullModelName (now (length w)) lastFinishReason in
          Streamed (w ++ [finalResponse])
      | StreamError err => Streamed (w ++ [streamErrorLine err])
      end
  | response :: pending =>
      let lastFinishReason := rememberFinishReason lastFinishReason response in
      match ChatCompletionStreamResponse.Choices response with
      | [] => Panicked w
      | choice0 :: _ =>
          let responseJSON :=
            generateChunk fullModelName (now (length w))
              (ChatCompletionStreamChoiceDelta.Content
                 (ChatCompletionStreamChoice.Delta choice0)) in
          generateStreamLoop fullModelName pending ending lastFinishReason
            (w ++ [responseJSON])
      end
  end.

(** [/api/chat]: the body of the non-streaming answer. *)
Definition chatResponse (fullModelName createdAt : string)
    (response : ChatCompletionResponse.t)
    (choice0 : ChatCompletionChoice.t) : Envelope :=
  let content :=
    if Nat.ltb 0 (length (ChatCompletionResponse.Choices response))
       && negb (String.eqb
                  (ChatCompletionMessage.Content
                     (ChatCompletionChoice.Message choice0)) "")
    then ChatCompletionMessage.Content (ChatCompletionChoice.Message choice0)
    else "" in
  let finishReason :=
    if negb (String.eqb (ChatCompletionChoice.FinishReason choice0) "")
    then ChatCompletionChoice.FinishReason choice0
    else "stop" in
  let usage := ChatCompletionResponse.Usage response in
  <[ "model" := JString fullModelName ]>
  (<[ "created_at" := JString createdAt ]>
  (<[ "message" :=
        JObject (<[ "role" := JString "assistant" ]>
                 {[ "content" := JString content ]}) ]>
  (<[ "done" := JBool true ]>
  (<[ "finish_reason" := JString finishReason ]>
  (<[ "total_duration" := JNumber (wrap64 (Usage.TotalTokens usage * 10)) ]>
  (<[ "load_duration" := JNumber 0 ]>
  (<[ "prompt_eval_count" := JNumber (Usage.PromptTokens usage) ]>
  (<[ "eval_count" := JNumber (Usage.CompletionTokens usage) ]>
  {[ "eval_duration" :=
       JNumber (wrap64 (Usage.CompletionTokens usage * 10)) ]})))))))).

(** The [/api/chat] handler, from the parsed request on. *)
Definition chatHandler (provider : OpenrouterProvider.t)
    (customRequest : CustomChatRequest.t)
  : HandlerResult * OpenrouterProvider.t :=
  let messages := chatMessages customRequest in
  let model := CustomChatRequest.Model customRequest in
  let streamRequested :=
    streamRequestedOf (CustomChatRequest.Stream customRequest) in
  if negb streamRequested
  then
    match GetFullModelName provider (now 0) model with
    | (Error err, provider) =>
        (RespondJSON StatusNotFound (errorBody err), provider)
    | (Ok fullModelName, provider) =>
        match Chat provider messages fullModelName with
        | Error err =>
            (RespondJSON StatusInternalServerError (errorBody err), provider)
        | Ok response =>
            match ChatCompletionResponse.Choices response with
            | [] =>
                (RespondJSON StatusInternalServerError
                   (errorBody "No response from model"), provider)
            | choice0 :: _ =>
                (RespondJSON StatusOK
                   (chatResponse fullModelName (now 0) response choice0),
                 provider)
            end
        end
    end
  else
    match GetFullModelName provider (now 0) model with
    | (Error err, provider) =>
        (RespondJSON StatusNotFound (errorBody err), provider)
    | (Ok fullModelName, provider) =>
        match ChatStream provider messages fullModelName with
        | Error err =>
            (RespondJSON StatusInternalServerError (errorBody err), provider)
        | Ok stream =>
            (chatStreamLoop fullModelName
               (ChatCompletionStream.pending stream)
               (ChatCompletionStream.ending stream) "" [],
             provider)
        end
    end.

(** [/api/generate]: the body of the non-streaming answer. *)
Definition generateResponse (fullModelName createdAt : string)
    (response : ChatCompletionResponse.t)
    (choice0 : ChatCompletionChoice.t) : Envelope :=
  let content :=
    if Nat.ltb 0 (length (ChatCompletionResponse.Choices response))
       && negb (String.eqb
                  (ChatCompletionMessage.Content
                     (ChatCompletionChoice.Message choice0)) "")
    then ChatCompletionMessage.Content (ChatCompletionChoice.Message choice0)
    else "" in
  let finishReason :=
    if negb (String.eqb (ChatCompletionChoice.FinishReason choice0) "")
    then ChatCompletionChoice.FinishReason choice0
    else "stop" in
  let usage := ChatCompletionResponse.Usage response in
  <[ "model" := JString fullModelName ]>
  (<[ "created_at" := JString createdAt ]>
  (<[ "response" := JString content ]>
  (<[ "done" := JBool true ]>
  (<[ "done_reason" := JString finishReason ]>
  (<[ "context" := JArray [JNumber 1; JNumber 2; JNumber 3] ]>
  (<[ "total_duration" :=
        JNumber (wrap64 (Usage.TotalTokens usage * 10000000)) ]>
  (<[ "load_duration" := JNumber 5000000 ]>
  (<[ "prompt_eval_count" := JNumber (Usage.PromptTokens usage) ]>
  (<[ "prompt_eval_duration" :=
        JNumber (wrap64 (Usage.PromptTokens usage * 10000000)) ]>
  (<[ "eval_count" := JNumber (Usage.CompletionTokens usage) ]>
  {[ "eval_duration" :=
       JNumber (wrap64 (Usage.CompletionTokens usage * 10000000))
  ]})))))))))).

(** The [/api/generate] handler, from the parsed request on. *)
Definition generateHandler (provider : OpenrouterProvider.t)
    (request : GenerateRequest.t) : HandlerResult * OpenrouterProvider.t :=
  let streamRequested :=
    streamRequestedOf (GenerateRequest.Stream request) in
  match GetFullModelName provider (now 0) (GenerateRequest.Model request) with
  | (Error err, provider) =>
      (RespondJSON StatusNotFound (errorBody err), provider)
  | (Ok fullModelName, provider) =>
      if negb streamRequested
      then
        match Generate provider (GenerateRequest.Prompt request)
                fullModelName (GenerateRequest.System request)
                (GenerateRequest.Images request) with
        | Error err =>
            (RespondJSON StatusInternalServerError (errorBody err), provider)
        | Ok response =>
            match ChatCompletionResponse.Choices response with
            | [] =>
                (RespondJSON StatusInternalServerError
                   (errorBody "No response from model"), provider)
            | choice0 :: _ =>
                (RespondJSON StatusOK
                   (generateResponse fullModelName (now 0) response choice0),
                 provider)
            end
        end
      else
        match GenerateStream provider (GenerateRequest.Prompt request)
                fullModelName (GenerateRequest.System request)
                (GenerateRequest.Images request) with
        | Error err =>
            (RespondJSON StatusInternalServerError (errorBody err), provider)
        | Ok stream =>
            (generateStreamLoop fullModelName
               (ChatCompletionStream.pending stream)
               (ChatCompletionStream.ending stream) "" [],
             provider)
        end
  end.

End Handlers.

(** ** main.go: the model filter, [/api/tags] and [/api/show] *)

(** A Go error with what [os.IsNotExist] answers for it. *)
Module GoError.
Record t : Type := mk {
  message : string;
  isNotExist : bool
}.
End GoError.

(** What the file system gives [loadModelFilter]: [os.Open] fails, or the
    file opens and the scanner yields [lines] and then stops, with the error
    [scanner.Err()] reports, if any. *)
Inductive FilterFile : Type :=
| OpenFails (err : GoError.t)
| Opens (lines : list string) (scanErr : option GoError.t).

(** [loadModelFilter]: the set of the non-blank lines of the file, trimmed.
    The Go [map[string]struct{}] is the finite set it stands for. *)
Definition loadModelFilter (file : FilterFile) : gset string + GoError.t :=
  match file with
  | OpenFails err => inr err
  | Opens lines scanErr =>
      let filter :=
        fold_left
          (fun (filter : gset string) text =>
             let line := strings.TrimSpace text in
             if negb (String.eqb line "") then {[ line ]} ∪ filter
             else filter)
          lines ∅ in
      match scanErr with
      | Some err => inr err
      | None => inl filter
      end
  end.

(** [main]: the filter the server starts with; [None] when [main] logs the
    error and returns. *)
Definition startupFilter (file : FilterFile) : option (gset string) :=
  match loadModelFilter file with
  | inr err => if GoError.isNotExist err then Some ∅ else None
  | inl filter => Some filter
  end.

(** [ModelDetails] as [encoding/json] writes it. *)
Definition detailsJSON (d : ModelDetails.t) : JSON :=
  JObject
    (<[ "parent_model" := JString (ModelDetails.ParentModel d) ]>
    (<[ "format" := JString (ModelDetails.Format d) ]>
    (<[ "family" := JString (ModelDetails.Family d) ]>
    (<[ "families" := JArray (map JString (ModelDetails.Families d)) ]>
    (<[ "parameter_size" := JString (ModelDetails.ParameterSize d) ]>
    {[ "quantization_level" :=
         JString (ModelDetails.QuantizationLevel d) ]}))))).

(** [/api/tags]: the entry listed for one model. *)
Definition tagEntry (m : Model.t) : JSON :=
  JObject
    (<[ "name" := JString (Model.Name m) ]>
    (<[ "model" := JString (Model.Model m) ]>
    (<[ "modified_at" := JString (Model.ModifiedAt m) ]>
    (<[ "size" := JNumber 270898672 ]>
    (<[ "digest" :=
          JString
            "9077fe9d2ae1a4a41a868836b56b8163731a8fe16621397028c2c76f838c6907" ]>
    {[ "details" := detailsJSON (Model.Details m) ]}))))).

(** The [/api/tags] handler. *)
Definition tagsHandler (provider : OpenrouterProvider.t)
    (modelFilter : gset string) (currentTime : string)
  : HandlerResult * OpenrouterProvider.t :=
  match GetModels provider currentTime with
  | (Error err, provider) =>
      (RespondJSON StatusInternalServerError (errorBody err), provider)
  | (Ok models, provider) =>
      let filter := modelFilter in
      let newModels :=
        fold_left
          (fun newModels m =>
             if Nat.ltb 0 (size filter)
                && negb (bool_decide (Model.Model m ∈ filter))
             then newModels
             else newModels ++ [tagEntry m])
          models [] in
      (RespondJSON StatusOK {[ "models" := JArray newModels ]}, provider)
  end.

Definition StatusBadRequest : nat := 400.

(** [(o *OpenrouterProvider) GetModelDetails]: a stub that never fails. *)
Definition GetModelDetails (o : OpenrouterProvider.t) (currentTime : string)
    (modelName : string) : result Envelope :=
  Ok (<[ "license" := JString "STUB License" ]>
     (<[ "system" := JString "STUB SYSTEM" ]>
     (<[ "modifiedAt" := JString currentTime ]>
     (<[ "details" :=
           JObject (<[ "format" := JString "gguf" ]>
                   (<[ "parameter_size" := JString "200B" ]>
                   {[ "quantization_level" := JString "Q4_K_M" ]})) ]>
     {[ "model_info" :=
          JObject (<[ "architecture" := JString "STUB" ]>
                  (<[ "context_length" := JNumber 200000 ]>
                  {[ "parameter_count" := JNumber 200000000000 ]})) ]})))).

(** The [/api/show] handler, from the parsed [map[string]string] on; a
    missing key reads as the empty string. *)
Definition showHandler (provider : OpenrouterProvider.t)
    (request : gmap string string) (currentTime : string) : HandlerResult :=
  let modelName := default "" (request !! "name") in
  if String.eqb modelName ""
  then RespondJSON StatusBadRequest (errorBody "Model name is required")
  else
    match GetModelDetails provider currentTime modelName with
    | Error err => RespondJSON StatusInternalServerError (errorBody err)
    | Ok details => RespondJSON StatusOK details
    end.

(** * Properties *)

(** ** Byte strings *)

#[local] Arguments String.append !s1 s2 / : simpl nomatch.

Lemma append_assoc (a b c : string) : (a +:+ b) +:+ c = a +:+ (b +:+ c).
Proof. induction a as [|x a IH]; simpl; [reflexivity | now rewrite IH]. Qed.

Lemma rev_app_spec (s acc : string) :
  strings.rev_app s acc = strings.rev s +:+ acc.
Proof.
  unfold strings.rev. revert acc.
  induction s as [|c s IH]; intros acc; simpl; [reflexivity|].
  rewrite IH, (IH (String c "")), append_assoc. reflexivity.
Qed.

Lemma rev_cons (c : ascii) (s : string) :
  strings.rev (String c s) = strings.rev s +:+ String c "".
Proof. unfold strings.rev at 1. simpl. apply rev_app_spec. Qed.

Lemma append_nil_r (s : string) : s +:+ "" = s.
Proof. induction s; simpl; congruence. Qed.

Lemma rev_append (a b : string) :
  strings.rev (a +:+ b) = strings.rev b +:+ strings.rev a.
Proof.
  induction a as [|c a IH]; simpl.
  - symmetry. apply append_nil_r.
  - rewrite !rev_cons, IH, append_assoc. reflexivity.
Qed.

Lemma rev_involutive (s : string) : strings.rev (strings.rev s) = s.
Proof.
  induction s as [|c s IH]; [reflexivity|].
  rewrite rev_cons, rev_append, IH. reflexivity.
Qed.

Lemma prefix_append (p s : string) : String.prefix p (p +:+ s) = true.
Proof.
  induction p as [|c p IH]; simpl.
  - destruct s; reflexivity.
  - destruct (ascii_dec c c); [exact IH | congruence].
Qed.

Lemma prefix_split (p s : string) :
  String.prefix p s = true -> exists r, s = p +:+ r.
Proof.
  revert s. induction p as [|c p IH]; intros s H.
  - exists s. reflexivity.
  - destruct s as [|d s]; simpl in H; [discriminate|].
    destruct (ascii_dec c d) as [->|]; [|discriminate].
    destruct (IH _ H) as [r ->]. exists r. reflexivity.
Qed.

Lemma Contains_append_l (p s sub : string) :
  strings.Contains s sub = true -> strings.Contains (p +:+ s) sub = true.
Proof.
  intros H. induction p as [|c p IH]; simpl; [exact H|].
  rewrite IH.
  match goal with |- (if ?b then _ else _) = _ => destruct b end; reflexivity.
Qed.

(** ** White-space trimming *)

Section TrimFacts.
Variable sp2 : ascii -> ascii -> bool.
Variable sp3 : ascii -> ascii -> ascii -> bool.

Local Notation width := (strings.spaceWidth sp2 sp3).
Local Notation trim := (strings.trimFront sp2 sp3).

Lemma trimFront_fixed (s : string) : width s = 0 -> trim s = s.
Proof.
  destruct s as [|c0 [|c1 [|c2 s3]]]; simpl; try reflexivity;
    destruct (strings.asciiSpace c0); try discriminate; try reflexivity;
    destruct (sp2 c0 c1); try discriminate; try reflexivity;
    destruct (sp3 c0 c1 c2); try discriminate; reflexivity.
Qed.

Lemma trimFront_props (n : nat) (s : string) :
  String.length s <= n ->
  width (trim s) = 0 /\ exists p, s = p +:+ trim s.
Proof.
  revert s. induction n as [|n IH]; intros s Hn.
  - destruct s; simpl in Hn; [|lia]. split; [reflexivity|].
    exists "". reflexivity.
  - destruct s as [|c0 s1]; [split; [reflexivity | exists ""; reflexivity]|].
    simpl in Hn.
    cbn [strings.trimFront].
    destruct (strings.asciiSpace c0) eqn:E0.
    { destruct (IH s1 ltac:(lia)) as [Hw [p Hp]]. split; [exact Hw|].
      exists (String c0 p). simpl. rewrite <- Hp. reflexivity. }
    destruct s1 as [|c1 s2].
    { split; [simpl; rewrite E0; reflexivity | exists ""; reflexivity]. }
    simpl in Hn.
    destruct (sp2 c0 c1) eqn:E2.
    { destruct (IH s2 ltac:(lia)) as [Hw [p Hp]]. split; [exact Hw|].
      exists (String c0 (String c1 p)). simpl. rewrite <- Hp. reflexivity. }
    destruct s2 as [|c2 s3].
    { split; [simpl; rewrite E0, E2; reflexivity | exists ""; reflexivity]. }
    simpl in Hn.
    destruct (sp3 c0 c1 c2) eqn:E3.
    { destruct (IH s3 ltac:(lia)) as [Hw [p Hp]]. split; [exact Hw|].
      exists (String c0 (String c1 (String c2 p))). simpl.
      rewrite <- Hp. reflexivity. }
    split; [simpl; rewrite E0, E2, E3; reflexivity | exists ""; reflexivity].
Qed.

Lemma trimFront_width (s : string) : width (trim s) = 0.
Proof. apply (trimFront_props (String.length s)). lia. Qed.

Lemma trimFront_suffix (s : string) : exists p, s = p +:+ trim s.
Proof. apply (trimFront_props (String.length s)). lia. Qed.

(** A string that starts with a white-space rune still does when it is
    extended. *)
Lemma width_append (a b : string) : width (a +:+ b) = 0 -> width a = 0.
Proof.
  destruct a as [|c0 [|c1 [|c2 a3]]]; simpl; try reflexivity;
    destruct (strings.asciiSpace c0); try discriminate; try reflexivity;
    destruct (sp2 c0 c1); try discriminate; try reflexivity;
    destruct (sp3 c0 c1 c2); try discriminate; reflexivity.
Qed.
End TrimFacts.

(** The encodings of white-space runes as the scan from the end meets
    them. *)
Definition space2r (b1 b0 : ascii) : bool := strings.space2 b0 b1.
Definition space3r (b2 b1 b0 : ascii) : bool := strings.space3 b0 b1 b2.

(** A string is trimmed when no white-space rune starts or ends it. *)
Definition trimmed (s : string) : Prop :=
  strings.spaceWidth strings.space2 strings.space3 s = 0
  /\ strings.spaceWidth space2r space3r (strings.rev s) = 0.

Ltac bool_arith :=
  repeat match goal with
         | |- context [Nat.eqb ?a ?b] => destruct (Nat.eqb_spec a b)
         | |- context [Nat.leb ?a ?b] => destruct (Nat.leb_spec a b)
         end;
  simpl; try reflexivity; try lia.

Lemma space2_ascii_l (b0 b1 : ascii) :
  nat_of_ascii b0 < 128 -> strings.space2 b0 b1 = false.
Proof. intros H. unfold strings.space2. bool_arith. Qed.

Lemma space2_ascii_r (b0 b1 : ascii) :
  nat_of_ascii b1 < 128 -> strings.space2 b0 b1 = false.
Proof. intros H. unfold strings.space2. bool_arith. Qed.

Lemma space3_ascii_1 (b0 b1 b2 : ascii) :
  nat_of_ascii b0 < 128 -> strings.space3 b0 b1 b2 = false.
Proof. intros H. unfold strings.space3. cbv zeta. bool_arith. Qed.

Lemma space3_ascii_2 (b0 b1 b2 : ascii) :
  nat_of_ascii b1 < 128 -> strings.space3 b0 b1 b2 = false.
Proof. intros H. unfold strings.space3. cbv zeta. bool_arith. Qed.

Lemma space3_ascii_3 (b0 b1 b2 : ascii) :
  nat_of_ascii b2 < 128 -> strings.space3 b0 b1 b2 = false.
Proof. intros H. unfold strings.space3. cbv zeta. bool_arith. Qed.

(** No white-space rune ends a string that ends with a byte below 128
    other than the six ASCII spaces, whatever comes before that byte. *)
Lemma back_extend (a b : string) (b0 : ascii) :
  strings.spaceWidth space2r space3r a = 0 ->
  nat_of_ascii b0 < 128 -> strings.asciiSpace b0 = false ->
  strings.spaceWidth space2r space3r (a +:+ String b0 b) = 0.
Proof.
  intros Ha Hb Hs. unfold space2r, space3r in *.
  destruct a as [|c0 [|c1 [|c2 a3]]]; simpl in *.
  - rewrite Hs. destruct b as [|b1 [|b2 b3]]; try reflexivity;
      rewrite ?space2_ascii_r, ?space3_ascii_3 by assumption; reflexivity.
  - destruct (strings.asciiSpace c0); [discriminate|].
    rewrite space2_ascii_l by assumption.
    destruct b as [|b1 b2]; [reflexivity|].
    rewrite space3_ascii_2 by assumption. reflexivity.
  - destruct (strings.asciiSpace c0); [discriminate|].
    destruct (strings.space2 c1 c0); [discriminate|].
    rewrite space3_ascii_1 by assumption. reflexivity.
  - exact Ha.
Qed.

Lemma TrimLeft_prefix_free (s : string) :
  strings.spaceWidth strings.space2 strings.space3 (strings.TrimLeft s) = 0.
Proof. apply trimFront_width. Qed.

Lemma TrimRight_prefix (s : string) :
  exists w, s = strings.TrimRight s +:+ w.
Proof.
  unfold strings.TrimRight.
  destruct (trimFront_suffix (fun b1 b0 => strings.space2 b0 b1)
              (fun b2 b1 b0 => strings.space3 b0 b1 b2) (strings.rev s))
    as [p Hp].
  exists (strings.rev p).
  rewrite <- rev_append, <- Hp. symmetry. apply rev_involutive.
Qed.

(** [TrimSpace] returns a trimmed string ... *)
Lemma TrimSpace_trimmed (s : string) : trimmed (strings.TrimSpace s).
Proof.
  unfold strings.TrimSpace. split.
  - destruct (TrimRight_prefix (strings.TrimLeft s)) as [w Hw].
    apply width_append with (b := w). rewrite <- Hw.
    apply TrimLeft_prefix_free.
  - unfold strings.TrimRight. rewrite rev_involutive.
    apply (trimFront_width (fun b1 b0 => strings.space2 b0 b1)
             (fun b2 b1 b0 => strings.space3 b0 b1 b2)).
Qed.

(** ... and leaves a trimmed string as it is. *)
Lemma TrimSpace_fixed (s : string) : trimmed s -> strings.TrimSpace s = s.
Proof.
  intros [Hf Hb]. unfold strings.TrimSpace, strings.TrimLeft.
  rewrite (trimFront_fixed _ _ _ Hf). unfold strings.TrimRight.
  rewrite (trimFront_fixed (fun b1 b0 => strings.space2 b0 b1)
             (fun b2 b1 b0 => strings.space3 b0 b1 b2) _ Hb).
  apply rev_involutive.
Qed.

Lemma TrimSpace_idempotent (s : string) :
  strings.TrimSpace (strings.TrimSpace s) = strings.TrimSpace s.
Proof. apply TrimSpace_fixed, TrimSpace_trimmed. Qed.

(** What [formatImageForAPI] puts in front of a payload. *)
Definition dataURLPrefixes : list string :=
  ["data:image/jpeg;base64,"; "data:image/png;base64,";
   "data:image/gif;base64,"; "data:image/webp;base64,"].

Lemma trimmed_prefixed (p t : string) :
  In p dataURLPrefixes -> trimmed t -> trimmed (p +:+ t).
Proof.
  intros Hp [Hf Hb]. split.
  - simpl in Hp.
    destruct Hp as [<-|[<-|[<-|[<-|[]]]]]; vm_compute; reflexivity.
  - rewrite rev_append.
    simpl in Hp.
    destruct Hp as [<-|[<-|[<-|[<-|[]]]]];
      (apply back_extend; [exact Hb | vm_compute; lia | vm_compute; reflexivity]).
Qed.

(** ** The image detector *)

(** The test [formatImageForAPI] makes for "already a data URL". *)
Definition hasDataURLPrefix (s : string) : bool :=
  strings.HasPrefix s "data:image/" && strings.Contains s ";base64,".

(** The image type read off the leading characters, in the order of
    precedence of the specification. *)
Definition detectedType (s : string) : string :=
  if String.prefix "/9j/" s then "jpeg"
  else if String.prefix "iVBOR" s then "png"
  else if String.prefix "R0lGOD" s then "gif"
  else if String.prefix "UklGR" s then "webp"
  else "jpeg".

(** The detector as the specification words it: the type is read off the
    input and the prefix is put in front of the input. *)
Definition detectorSpec (input : string) : string :=
  "data:image/" +:+ detectedType input +:+ ";base64," +:+ input.

Lemma format_unfold (x : string) :
  x <> "" ->
  formatImageForAPI x =
    if hasDataURLPrefix (strings.TrimSpace x) then strings.TrimSpace x
    else detectorSpec (strings.TrimSpace x).
Proof.
  intros Hx. unfold formatImageForAPI, hasDataURLPrefix, detectorSpec,
    detectedType, strings.HasPrefix.
  destruct x as [|c x]; [congruence|]. cbn [len String.length Nat.eqb].
  cbv zeta.
  destruct (String.prefix "data:image/" _ && strings.Contains _ _);
    [reflexivity|].
  repeat match goal with
         | |- context [String.prefix ?p ?s] =>
             lazymatch p with
             | "data:image/" => fail
             | _ => destruct (String.prefix p s)
             end
         end; reflexivity.
Qed.

Lemma detectorSpec_prefixed (t : string) :
  exists p, In p dataURLPrefixes /\ detectorSpec t = p +:+ t.
Proof.
  unfold detectorSpec, detectedType, dataURLPrefixes.
  destruct (String.prefix "/9j/" t); [eexists; split; [left; reflexivity|reflexivity]|].
  destruct (String.prefix "iVBOR" t);
    [eexists; split; [right; left; reflexivity|reflexivity]|].
  destruct (String.prefix "R0lGOD" t);
    [eexists; split; [right; right; left; reflexivity|reflexivity]|].
  destruct (String.prefix "UklGR" t);
    [eexists; split; [right; right; right; left; reflexivity|reflexivity]|].
  eexists; split; [left; reflexivity|reflexivity].
Qed.

Lemma hasDataURLPrefix_prefixed (p t : string) :
  In p dataURLPrefixes -> hasDataURLPrefix (p +:+ t) = true.
Proof.
  intros Hp. simpl in Hp.
  destruct Hp as [<-|[<-|[<-|[<-|[]]]]]; destruct t; vm_compute; reflexivity.
Qed.

Lemma hasDataURLPrefix_nonempty (t : string) :
  hasDataURLPrefix t = true -> t <> "".
Proof. intros H ->. vm_compute in H. discriminate. Qed.

Lemma prefixed_nonempty (p t : string) :
  In p dataURLPrefixes -> p +:+ t <> "".
Proof.
  intros Hp. simpl in Hp.
  destruct Hp as [<-|[<-|[<-|[<-|[]]]]]; discriminate.
Qed.

(** A trimmed data URL is returned as it is. *)
Lemma format_of_dataurl (t : string) :
  trimmed t -> hasDataURLPrefix t = true -> formatImageForAPI t = t.
Proof.
  intros Ht Hp.
  rewrite format_unfold by (apply hasDataURLPrefix_nonempty; exact Hp).
  rewrite (TrimSpace_fixed _ Ht), Hp. reflexivity.
Qed.

Lemma format_idempotent (x : string) :
  formatImageForAPI (formatImageForAPI x) = formatImageForAPI x.
Proof.
  destruct (string_dec x "") as [->|Hx]; [reflexivity|].
  rewrite (format_unfold x Hx).
  pose proof (TrimSpace_trimmed x) as Ht.
  destruct (hasDataURLPrefix (strings.TrimSpace x)) eqn:E.
  - apply format_of_dataurl; assumption.
  - destruct (detectorSpec_prefixed (strings.TrimSpace x)) as [p [Hp ->]].
    apply format_of_dataurl.
    + apply trimmed_prefixed; assumption.
    + apply hasDataURLPrefix_prefixed; assumption.
Qed.

(** C5, as amended: on input that is not empty and that, once trimmed, is
    not already a data URL, the detector reads the leading characters of the
    TRIMMED input in the order /9j/ (JPEG), iVBOR (PNG), R0lGOD (GIF), UklGR
    (WEBP), first match winning and JPEG on no match, and returns
    "data:image/<type>;base64," followed by the TRIMMED input. *)
Theorem C5_detector_prefixes_trimmed_input (input : string) :
  input <> "" ->
  hasDataURLPrefix (strings.TrimSpace input) = false ->
  formatImageForAPI input = detectorSpec (strings.TrimSpace input).
Proof. intros Hne Hp. rewrite (format_unfold _ Hne), Hp. reflexivity. Qed.

Lemma C5_detector_prefixes_trimmed_input_witness :
  " iVBORw0KGgo" <> ""
  /\ hasDataURLPrefix (strings.TrimSpace " iVBORw0KGgo") = false
  /\ formatImageForAPI " iVBORw0KGgo"
     = detectorSpec (strings.TrimSpace " iVBORw0KGgo").
Proof.
  split; [discriminate|]. split; [vm_compute; reflexivity|].
  apply (C5_detector_prefixes_trimmed_input " iVBORw0KGgo");
    [discriminate | vm_compute; reflexivity].
Defined.

(** For input without white space around it the claim holds as it is
    stated: the prefix is followed by the input itself. *)
Lemma detector_on_trimmed_input (input : string) :
  input <> "" -> trimmed input -> hasDataURLPrefix input = false ->
  formatImageForAPI input = detectorSpec input.
Proof.
  intros Hne Ht Hp. rewrite (format_unfold _ Hne), (TrimSpace_fixed _ Ht), Hp.
  reflexivity.
Qed.

(** C5 as stated fails: a PNG payload with a leading blank is non-empty and
    carries no data-URL prefix, its literal leading characters match no
    signature, yet the result is the PNG prefix followed by the payload
    without the blank. *)
Lemma C5_counterexample :
  " iVBORw0KGgo" <> ""
  /\ hasDataURLPrefix " iVBORw0KGgo" = false
  /\ formatImageForAPI " iVBORw0KGgo" = "data:image/png;base64,iVBORw0KGgo"
  /\ formatImageForAPI " iVBORw0KGgo" <> detectorSpec " iVBORw0KGgo"
  /\ forall type : string,
       formatImageForAPI " iVBORw0KGgo"
       <> "data:image/" +:+ type +:+ ";base64," +:+ " iVBORw0KGgo".
Proof.
  split; [discriminate|]. split; [vm_compute; reflexivity|].
  split; [vm_compute; reflexivity|]. split; [vm_compute; discriminate|].
  intros type H.
  assert (Hl : String.length (formatImageForAPI " iVBORw0KGgo")
               = String.length ("data:image/" +:+ type +:+ ";base64,"
                                +:+ " iVBORw0KGgo"))
    by (rewrite H; reflexivity).
  assert (Happ : forall a b, String.length (a +:+ b)
                             = String.length a + String.length b).
  { intros a b. induction a; simpl; [reflexivity | now rewrite IHa]. }
  rewrite !Happ in Hl. vm_compute in Hl.
  assert (Hrev : strings.rev (formatImageForAPI " iVBORw0KGgo")
                 = strings.rev ("data:image/" +:+ type +:+ ";base64,"
                                +:+ " iVBORw0KGgo"))
    by (rewrite H; reflexivity).
  rewrite !rev_append in Hrev. vm_compute in Hrev.
  destruct (strings.rev type) as [|c r]; vm_compute in Hrev; [discriminate|].
  discriminate.
Qed.

(** C9, as amended: the detector is idempotent on every input; input whose
    trimmed form is already a data URL is returned trimmed, which is the
    input unchanged when the input has no white space around it. *)
Theorem C9_detector_idempotent (input : string) :
  formatImageForAPI (formatImageForAPI input) = formatImageForAPI input
  /\ (hasDataURLPrefix (strings.TrimSpace input) = true ->
      formatImageForAPI input = strings.TrimSpace input)
  /\ (hasDataURLPrefix input = true -> trimmed input ->
      formatImageForAPI input = input).
Proof.
  split; [apply format_idempotent|]. split.
  - intros Hp.
    destruct (string_dec input "") as [->|Hne];
      [vm_compute in Hp; discriminate|].
    rewrite (format_unfold _ Hne), Hp. reflexivity.
  - intros Hp Ht. apply format_of_dataurl; assumption.
Qed.

Lemma C9_detector_idempotent_witness :
  formatImageForAPI (formatImageForAPI " /9j/4AAQ ") = formatImageForAPI " /9j/4AAQ "
  /\ formatImageForAPI "data:image/png;base64,iVBOR " = "data:image/png;base64,iVBOR"
  /\ formatImageForAPI "data:image/png;base64,iVBOR" = "data:image/png;base64,iVBOR".
Proof.
  split; [apply (C9_detector_idempotent " /9j/4AAQ ")|]. split.
  - apply (C9_detector_idempotent "data:image/png;base64,iVBOR ").
    vm_compute. reflexivity.
  - apply (C9_detector_idempotent "data:image/png;base64,iVBOR");
      vm_compute; split; reflexivity.
Defined.

(** C9 as stated fails: input that begins with a data-URL prefix and ends
    with a blank is not returned unchanged. *)
Lemma C9_counterexample :
  hasDataURLPrefix "data:image/png;base64,iVBOR " = true
  /\ formatImageForAPI "data:image/png;base64,iVBOR "
     <> "data:image/png;base64,iVBOR ".
Proof. split; [vm_compute; reflexivity | vm_compute; discriminate]. Qed.

(** ** The catalog cache and alias resolution *)

(** [s] ends with [suf]. *)
Definition endsWith (s suf : string) : Prop := exists p, s = p +:+ suf.

(** [n] is the first entry of [names], in order, that ends with [alias]. *)
Definition firstEndingWith (alias : string) (names : list string)
    (n : string) : Prop :=
  exists pre post,
    names = pre ++ n :: post /\ endsWith n alias
    /\ forall m, In m pre -> ~ endsWith m alias.

Lemma length_append (a b : string) :
  String.length (a +:+ b) = String.length a + String.length b.
Proof. induction a as [|c a IH]; simpl; [reflexivity | now rewrite IH]. Qed.

Lemma substring_skip (p s : string) (m : nat) :
  String.substring (String.length p) m (p +:+ s) = String.substring 0 m s.
Proof. induction p as [|c p IH]; simpl; [reflexivity | exact IH]. Qed.

Lemma substring_all (s : string) :
  String.substring 0 (String.length s) s = s.
Proof. induction s as [|c s IH]; simpl; [reflexivity | now rewrite IH]. Qed.

Lemma substring_split (s : string) (n : nat) :
  n <= String.length s ->
  s = String.substring 0 n s
      +:+ String.substring n (String.length s - n) s.
Proof.
  revert n. induction s as [|c s IH]; intros n Hn.
  - simpl in Hn. assert (n = 0) as -> by lia. reflexivity.
  - destruct n as [|n].
    + cbn [String.substring String.append]. rewrite Nat.sub_0_r.
      symmetry. apply (substring_all (String c s)).
    + simpl in Hn. cbn [String.substring String.length Nat.sub].
      simpl. f_equal. apply IH. lia.
Qed.

Lemma HasSuffix_endsWith (s suf : string) :
  strings.HasSuffix s suf = true <-> endsWith s suf.
Proof.
  unfold strings.HasSuffix, endsWith. split.
  - intros H. apply andb_prop in H as [Hl He].
    apply Nat.leb_le in Hl. apply String.eqb_eq in He.
    exists (String.substring 0 (String.length s - String.length suf) s).
    pose proof (substring_split s (String.length s - String.length suf)
                  ltac:(lia)) as Hs.
    replace (String.length s - (String.length s - String.length suf))
      with (String.length suf) in Hs by lia.
    rewrite He in Hs. exact Hs.
  - intros [p ->]. rewrite length_append. apply andb_true_intro. split.
    + apply Nat.leb_le. lia.
    + replace (String.length p + String.length suf - String.length suf)
        with (String.length p) by lia.
      rewrite substring_skip, substring_all. apply String.eqb_refl.
Qed.

Lemma find_first {A : Type} (f : A -> bool) (pre post : list A) (x : A) :
  f x = true -> (forall y, In y pre -> f y = false) ->
  List.find f (pre ++ x :: post) = Some x.
Proof.
  intros Hx Hpre. induction pre as [|y pre IH]; simpl.
  - rewrite Hx. reflexivity.
  - rewrite (Hpre y (or_introl eq_refl)). apply IH.
    intros z Hz. apply Hpre. right. exact Hz.
Qed.

Lemma GetModels_names (c : Client.t) (t : string) (IDs : list string)
    (models : list Model.t) (names : list string) :
  fold_left
    (fun '(models, o) ID =>
       (models ++ [modelOf t ID],
        OpenrouterProvider.mk (client o) (modelNames o ++ [ID])))
    IDs (models, OpenrouterProvider.mk c names)
  = (models ++ map (modelOf t) IDs, OpenrouterProvider.mk c (names ++ IDs)).
Proof.
  revert models names. induction IDs as [|ID IDs IH]; intros models names.
  - simpl. rewrite !app_nil_r. reflexivity.
  - cbn [fold_left client modelNames]. rewrite IH.
    rewrite <- !app_assoc. reflexivity.
Qed.

Lemma GetModels_spec (o : OpenrouterProvider.t) (currentTime : string) :
  match Client.ListModels (client o) with
  | Error err => GetModels o currentTime = (Error err, o)
  | Ok IDs =>
      GetModels o currentTime
      = (Ok (map (modelOf currentTime) IDs),
         OpenrouterProvider.mk (client o) IDs)
  end.
Proof.
  unfold GetModels. destruct (Client.ListModels (client o)) as [IDs|err].
  - cbn [client]. rewrite GetModels_names. reflexivity.
  - reflexivity.
Qed.

(** C8: a failed catalog fetch returns the error and leaves the provider,
    hence the cache, exactly as it was; a successful fetch makes the cache
    the fetched identifiers, in order, and nothing else. *)
Theorem C8_fetch_failure_keeps_cache_success_replaces
    (o : OpenrouterProvider.t) (currentTime : string) :
  match Client.ListModels (client o) with
  | Error err =>
      GetModels o currentTime = (Error err, o)
      /\ modelNames (GetModels o currentTime).2 = modelNames o
  | Ok IDs =>
      (exists models, (GetModels o currentTime).1 = Ok models)
      /\ modelNames (GetModels o currentTime).2 = IDs
  end.
Proof.
  pose proof (GetModels_spec o currentTime) as H.
  destruct (Client.ListModels (client o)) as [IDs|err]; rewrite H.
  - split; [eexists; reflexivity | reflexivity].
  - split; reflexivity.
Qed.

(** C1: against a non-empty cache, resolution succeeds, does not touch the
    provider, and returns the alias when it is in the cache, otherwise the
    first cached identifier that ends with the alias, otherwise the
    alias. *)
Theorem C1_resolution_precedence (o : OpenrouterProvider.t)
    (currentTime alias : string) :
  modelNames o <> [] ->
  exists fullName,
    GetFullModelName o currentTime alias = (Ok fullName, o)
    /\ (In alias (modelNames o) -> fullName = alias)
    /\ (~ In alias (modelNames o) ->
        forall n, firstEndingWith alias (modelNames o) n -> fullName = n)
    /\ (~ In alias (modelNames o) ->
        (forall n, In n (modelNames o) -> ~ endsWith n alias) ->
        fullName = alias).
Proof.
  intros Hne. unfold GetFullModelName.
  destruct (modelNames o) as [|n0 names] eqn:En; [congruence|].
  cbn [length Nat.eqb]. rewrite En.
  destruct (List.find (fun fullName => String.eqb fullName alias)
              (n0 :: names)) as [x|] eqn:Ex.
  - apply List.find_some in Ex as [Hin Hx]. apply String.eqb_eq in Hx.
    subst x. exists alias. split; [reflexivity|]. split; [reflexivity|].
    split; intros Hnot; contradiction.
  - assert (Hnot : ~ In alias (n0 :: names)).
    { intros Hin. pose proof (List.find_none _ _ Ex _ Hin) as H.
      cbv beta in H. rewrite String.eqb_refl in H. discriminate. }
    destruct (List.find (fun fullName => strings.HasSuffix fullName alias)
                (n0 :: names)) as [y|] eqn:Ey.
    + exists y. split; [reflexivity|]. split; [intros; contradiction|].
      split.
      * intros _ n (pre & post & Hsplit & Hn & Hpre).
        rewrite Hsplit in Ey. rewrite find_first in Ey.
        -- congruence.
        -- apply HasSuffix_endsWith. exact Hn.
        -- intros m Hm. destruct (strings.HasSuffix m alias) eqn:E;
             [|reflexivity].
           exfalso. apply (Hpre m Hm). apply HasSuffix_endsWith. exact E.
      * intros _ Hall. apply List.find_some in Ey as [Hin Hy].
        cbv beta in Hy. exfalso. apply (Hall y Hin). apply HasSuffix_endsWith. exact Hy.
    + exists alias. split; [reflexivity|]. split; [reflexivity|].
      split; [|reflexivity].
      intros _ n (pre & post & Hsplit & Hn & _).
      assert (Hin : In n (n0 :: names))
        by (rewrite Hsplit; apply in_or_app; right; left; reflexivity).
      pose proof (List.find_none _ _ Ey _ Hin) as H. cbv beta in H.
      apply HasSuffix_endsWith in Hn. congruence.
Qed.

(** A provider whose upstream is down and whose cache is empty, and one
    with a cache; used to exercise the theorems. *)
Definition downClient : Client.t :=
  Client.mk (Error "connection refused")
    (fun _ => Error "connection refused")
    (fun _ => Error "connection refused").

Definition coldProvider : OpenrouterProvider.t :=
  OpenrouterProvider.mk downClient [].

Definition warmProvider : OpenrouterProvider.t :=
  OpenrouterProvider.mk downClient
    ["openai/gpt-4o"; "anthropic/claude-sonnet-4"; "x/claude-sonnet-4"].

Lemma C1_resolution_precedence_witness :
  modelNames warmProvider <> []
  /\ exists fullName,
       GetFullModelName warmProvider "t" "claude-sonnet-4"
       = (Ok fullName, warmProvider)
       /\ (In "claude-sonnet-4" (modelNames warmProvider) ->
           fullName = "claude-sonnet-4")
       /\ (~ In "claude-sonnet-4" (modelNames warmProvider) ->
           forall n,
             firstEndingWith "claude-sonnet-4" (modelNames warmProvider) n ->
             fullName = n)
       /\ (~ In "claude-sonnet-4" (modelNames warmProvider) ->
           (forall n, In n (modelNames warmProvider) ->
                      ~ endsWith n "claude-sonnet-4") ->
           fullName = "claude-sonnet-4").
Proof.
  split; [discriminate|].
  apply (C1_resolution_precedence warmProvider "t" "claude-sonnet-4").
  discriminate.
Defined.

Example resolve_suffix :
  GetFullModelName warmProvider "t" "claude-sonnet-4"
  = (Ok "anthropic/claude-sonnet-4", warmProvider).
Proof. vm_compute. reflexivity. Qed.

Example resolve_exact :
  GetFullModelName warmProvider "t" "x/claude-sonnet-4"
  = (Ok "x/claude-sonnet-4", warmProvider).
Proof. vm_compute. reflexivity. Qed.

Example resolve_passthrough :
  GetFullModelName warmProvider "t" "sonnet" = (Ok "sonnet", warmProvider).
Proof. vm_compute. reflexivity. Qed.

Lemma GetFullModelName_error (o : OpenrouterProvider.t)
    (currentTime alias : string) :
  (exists msg, (GetFullModelName o currentTime alias).1 = Error msg)
  <-> (modelNames o = [] /\ exists err, Client.ListModels (client o) = Error err).
Proof.
  unfold GetFullModelName.
  destruct (modelNames o) as [|n0 names] eqn:En; cbn [length Nat.eqb].
  - pose proof (GetModels_spec o currentTime) as HG.
    destruct (Client.ListModels (client o)) as [IDs|err]; rewrite HG.
    + split.
      * intros [msg H]. exfalso. revert H.
        cbn [modelNames].
        destruct (List.find _ IDs); [intros H; discriminate H|].
        destruct (List.find _ IDs); intros H; discriminate H.
      * intros [_ [err H]]. discriminate H.
    + split; [intros _; split; [reflexivity | eauto]|].
      intros _. eexists. reflexivity.
  - rewrite En. split.
    + intros [msg H]. exfalso. revert H.
      destruct (List.find _ (n0 :: names)); [intros H; discriminate H|].
      destruct (List.find _ (n0 :: names)); intros H; discriminate H.
    + intros [H _]. discriminate H.
Qed.

(** C6: resolution fails exactly when the cache is empty and the catalog
    fetch fails; both handlers answer a failed resolution with 404 and a
    failed chat/completion call with 500. *)
Theorem C6_resolution_failure_404_call_failure_500 (now : nat -> string)
    (o : OpenrouterProvider.t) :
  (forall currentTime alias,
      (exists msg, (GetFullModelName o currentTime alias).1 = Error msg)
      <-> (modelNames o = []
           /\ exists err, Client.ListModels (client o) = Error err))
  /\ (forall customRequest msg o',
         GetFullModelName o (now 0) (CustomChatRequest.Model customRequest)
         = (Error msg, o') ->
         chatHandler now o customRequest
         = (RespondJSON StatusNotFound (errorBody msg), o'))
  /\ (forall request msg o',
         GetFullModelName o (now 0) (GenerateRequest.Model request)
         = (Error msg, o') ->
         generateHandler now o request
         = (RespondJSON StatusNotFound (errorBody msg), o'))
  /\ (forall customRequest fullModelName o' err,
         GetFullModelName o (now 0) (CustomChatRequest.Model customRequest)
         = (Ok fullModelName, o') ->
         (if streamRequestedOf (CustomChatRequest.Stream customRequest)
          then ChatStream o' (chatMessages customRequest) fullModelName
               = Error err
          else Chat o' (chatMessages customRequest) fullModelName
               = Error err) ->
         chatHandler now o customRequest
         = (RespondJSON StatusInternalServerError (errorBody err), o'))
  /\ (forall request fullModelName o' err,
         GetFullModelName o (now 0) (GenerateRequest.Model request)
         = (Ok fullModelName, o') ->
         (if streamRequestedOf (GenerateRequest.Stream request)
          then GenerateStream o' (GenerateRequest.Prompt request)
                 fullModelName (GenerateRequest.System request)
                 (GenerateRequest.Images request) = Error err
          else Generate o' (GenerateRequest.Prompt request) fullModelName
                 (GenerateRequest.System request)
                 (GenerateRequest.Images request) = Error err) ->
         generateHandler now o request
         = (RespondJSON StatusInternalServerError (errorBody err), o')).
Proof.
  split; [intros; apply GetFullModelName_error|].
  split; [|split; [|split]].
  - intros req msg o' H. unfold chatHandler. cbv zeta. rewrite H.
    destruct (negb _); reflexivity.
  - intros req msg o' H. unfold generateHandler. cbv zeta. rewrite H.
    reflexivity.
  - intros req name o' err H Hcall. unfold chatHandler. cbv zeta. rewrite H.
    destruct (streamRequestedOf _); cbn [negb]; rewrite Hcall; reflexivity.
  - intros req name o' err H Hcall. unfold generateHandler. cbv zeta.
    rewrite H.
    destruct (streamRequestedOf _); cbn [negb]; rewrite Hcall; reflexivity.
Qed.

(** A provider with a cache whose upstream refuses every call. *)
Lemma C6_resolution_failure_404_call_failure_500_witness :
  chatHandler (fun _ => "t") coldProvider
    (CustomChatRequest.mk "gpt-x" [] None [])
  = (RespondJSON 404 (errorBody "failed to get models: connection refused"),
     coldProvider)
  /\ generateHandler (fun _ => "t") warmProvider
       (GenerateRequest.mk "gpt-4o" "hello" "" (Some false) [])
     = (RespondJSON 500 (errorBody "connection refused"), warmProvider).
Proof.
  split.
  - apply (C6_resolution_failure_404_call_failure_500 (fun _ => "t")
             coldProvider).
    reflexivity.
  - apply (C6_resolution_failure_404_call_failure_500 (fun _ => "t")
             warmProvider) with (fullModelName := "openai/gpt-4o");
      reflexivity.
Defined.

(** ** The message normaliser *)

Definition nonEmpty (s : string) : bool := negb (Nat.eqb (len s) 0).

(** One image part per image, each image passed through the detector. *)
Definition imageParts (images : list string) : list ChatMessagePart.t :=
  map (fun imgBase64 => ImagePart (formatImageForAPI imgBase64)) images.

(** A parsed message as a standard message without content parts. *)
Definition convert (m : MessageWithImages.t) : ChatCompletionMessage.t :=
  ChatCompletionMessage.mk (MessageWithImages.Role m)
    (MessageWithImages.Content m) [].

Definition isUser (role : string) : bool :=
  String.eqb role ChatMessageRoleUser.

(** A parsed message after the message-scoped image step. *)
Definition withOwnImages (m : MessageWithImages.t) : ChatCompletionMessage.t :=
  if negb (isUser (MessageWithImages.Role m))
     || Nat.eqb (length (MessageWithImages.Images m)) 0
  then convert m
  else
    ChatCompletionMessage.mk (MessageWithImages.Role m) ""
      (TextPart (MessageWithImages.Content m)
       :: imageParts (List.filter nonEmpty (MessageWithImages.Images m))).

(** The content parts of the target message after the top-level step. *)
Definition withTopLevelImages (images : list string)
    (userMsg : ChatCompletionMessage.t) : ChatCompletionMessage.t :=
  ChatCompletionMessage.mk (ChatCompletionMessage.Role userMsg) ""
    ((if Nat.ltb 0 (length (ChatCompletionMessage.MultiContent userMsg))
      then ChatCompletionMessage.MultiContent userMsg
      else [TextPart (ChatCompletionMessage.Content userMsg)])
     ++ imageParts images).

Lemma skip_empty_fold (images : list string)
    (contentItems : list ChatMessagePart.t) :
  fold_left
    (fun contentItems imgBase64 =>
       if Nat.eqb (len imgBase64) 0 then contentItems
       else contentItems ++ [ImagePart (formatImageForAPI imgBase64)])
    images contentItems
  = contentItems ++ imageParts (List.filter nonEmpty images).
Proof.
  revert contentItems.
  induction images as [|img images IH]; intros contentItems.
  - simpl. rewrite app_nil_r. reflexivity.
  - cbn [fold_left List.filter]. rewrite IH. unfold nonEmpty at 2.
    destruct (Nat.eqb (len img) 0); cbn [negb]; [reflexivity|].
    unfold imageParts. cbn [map]. rewrite <- app_assoc. reflexivity.
Qed.

Lemma all_images_fold (images : list string)
    (contentItems : list ChatMessagePart.t) :
  fold_left
    (fun contentItems imgBase64 =>
       contentItems ++ [ImagePart (formatImageForAPI imgBase64)])
    images contentItems
  = contentItems ++ imageParts images.
Proof.
  revert contentItems.
  induction images as [|img images IH]; intros contentItems.
  - simpl. rewrite app_nil_r. reflexivity.
  - cbn [fold_left]. rewrite IH. unfold imageParts. cbn [map].
    rewrite <- app_assoc. reflexivity.
Qed.

Lemma convertMessages_map (customMessages : list MessageWithImages.t) :
  convertMessages customMessages = map convert customMessages.
Proof.
  unfold convertMessages.
  enough (H : forall acc,
             fold_left
               (fun messages customMsg =>
                  messages
                  ++ [ChatCompletionMessage.mk
                        (MessageWithImages.Role customMsg)
                        (MessageWithImages.Content customMsg) []])
               customMessages acc
             = acc ++ map convert customMessages) by apply (H []).
  induction customMessages as [|m ms IH]; intros acc.
  - simpl. rewrite app_nil_r. reflexivity.
  - cbn [fold_left map]. rewrite IH, <- app_assoc. reflexivity.
Qed.

Lemma processMessageImages_from (l : list MessageWithImages.t)
    (done : list ChatCompletionMessage.t) :
  fold_left
    (fun messages '(i, customMsg) =>
       if negb (String.eqb (MessageWithImages.Role customMsg)
                  ChatMessageRoleUser)
          || Nat.eqb (length (MessageWithImages.Images customMsg)) 0
       then messages
       else
         match messages !! i with
         | None => messages
         | Some msg =>
             let prompt := ChatCompletionMessage.Content msg in
             let contentItems := [] ++ [TextPart prompt] in
             let contentItems :=
               fold_left
                 (fun contentItems imgBase64 =>
                    if Nat.eqb (len imgBase64) 0 then contentItems
                    else
                      let formattedURL := formatImageForAPI imgBase64 in
                      contentItems ++ [ImagePart formattedURL])
                 (MessageWithImages.Images customMsg) contentItems in
             <[i := ChatCompletionMessage.mk
                      (ChatCompletionMessage.Role msg) "" contentItems]>
               messages
         end)
    (combine (seq (length done) (length l)) l) (done ++ map convert l)
  = done ++ map withOwnImages l.
Proof.
  revert done. induction l as [|m l IH]; intros done; [reflexivity|].
  cbn [length seq combine fold_left map].
  assert (Hlen : S (length done) = length (done ++ [withOwnImages m]))
    by (rewrite length_app; simpl; lia).
  pose proof (eq_refl (withOwnImages m)) as Hm.
  unfold withOwnImages at 2 in Hm. unfold isUser in Hm.
  destruct (negb (String.eqb (MessageWithImages.Role m) ChatMessageRoleUser)
            || Nat.eqb (length (MessageWithImages.Images m)) 0) eqn:E.
  - replace (done ++ convert m :: map convert l)
      with ((done ++ [withOwnImages m]) ++ map convert l)
      by (rewrite Hm, <- app_assoc; reflexivity).
    rewrite Hlen, IH, <- app_assoc. reflexivity.
  - rewrite list_lookup_middle by reflexivity. cbv zeta.
    rewrite skip_empty_fold.
    rewrite insert_app_r_alt by lia. rewrite Nat.sub_diag.
    cbn [insert list_insert].
    cbn [convert ChatCompletionMessage.Role ChatCompletionMessage.Content
         app].
    rewrite <- Hm.
    replace (done ++ withOwnImages m :: map convert l)
      with ((done ++ [withOwnImages m]) ++ map convert l)
      by (rewrite <- app_assoc; reflexivity).
    rewrite Hlen, IH, <- app_assoc. reflexivity.
Qed.

Lemma processMessageImages_map (customMessages : list MessageWithImages.t) :
  processMessageImages customMessages (convertMessages customMessages)
  = map withOwnImages customMessages.
Proof.
  unfold processMessageImages, enumerate. rewrite convertMessages_map.
  apply (processMessageImages_from customMessages []).
Qed.

Lemma lookup_map {A B : Type} (f : A -> B) (l : list A) (i : nat) :
  map f l !! i = option_map f (l !! i).
Proof.
  revert i. induction l as [|x l IH]; intros [|i]; simpl; auto.
Qed.

Lemma lastUser_found (messages : list ChatCompletionMessage.t) (n i : nat)
    (u : ChatCompletionMessage.t) :
  i < n -> messages !! i = Some u ->
  isUser (ChatCompletionMessage.Role u) = true ->
  (forall j m, i < j -> messages !! j = Some m ->
               isUser (ChatCompletionMessage.Role m) = false) ->
  lastUserMsgIndexFrom messages n = Some i.
Proof.
  intros Hi Hu Hrole Hlater. induction n as [|n IH]; [lia|].
  cbn [lastUserMsgIndexFrom].
  destruct (Nat.eq_dec i n) as [->|Hne].
  - rewrite Hu. unfold isUser in Hrole. rewrite Hrole. reflexivity.
  - destruct (messages !! n) as [m|] eqn:Em; [|apply IH; lia].
    pose proof (Hlater n m ltac:(lia) Em) as Hm. unfold isUser in Hm.
    rewrite Hm. apply IH. lia.
Qed.

Lemma lastUser_none (messages : list ChatCompletionMessage.t) (n : nat) :
  (forall j m, messages !! j = Some m ->
               isUser (ChatCompletionMessage.Role m) = false) ->
  lastUserMsgIndexFrom messages n = None.
Proof.
  intros Hall. induction n as [|n IH]; [reflexivity|].
  cbn [lastUserMsgIndexFrom].
  destruct (messages !! n) as [m|] eqn:Em; [|exact IH].
  pose proof (Hall n m Em) as Hm. unfold isUser in Hm. rewrite Hm. exact IH.
Qed.

Lemma processTopLevelImages_target (images : list string)
    (messages : list ChatCompletionMessage.t) (i : nat)
    (u : ChatCompletionMessage.t) :
  images <> [] -> messages !! i = Some u ->
  isUser (ChatCompletionMessage.Role u) = true ->
  (forall j m, i < j -> messages !! j = Some m ->
               isUser (ChatCompletionMessage.Role m) = false) ->
  processTopLevelImages images messages
  = <[i := withTopLevelImages images u]> messages.
Proof.
  intros Himg Hu Hrole Hlater. unfold processTopLevelImages.
  assert (Hi : i < length messages)
    by (apply lookup_lt_is_Some; eauto).
  destruct images as [|img images]; [congruence|].
  destruct messages as [|m0 messages]; [simpl in Hi; lia|].
  cbn [length Nat.ltb Nat.leb andb].
  unfold lastUserMsgIndex.
  rewrite (lastUser_found _ _ i u Hi Hu Hrole Hlater), Hu. cbv zeta.
  rewrite all_images_fold. reflexivity.
Qed.

Lemma processTopLevelImages_no_user (images : list string)
    (messages : list ChatCompletionMessage.t) :
  (forall j m, messages !! j = Some m ->
               isUser (ChatCompletionMessage.Role m) = false) ->
  processTopLevelImages images messages = messages.
Proof.
  intros Hall. unfold processTopLevelImages, lastUserMsgIndex.
  rewrite (lastUser_none _ _ Hall). destruct (_ && _); reflexivity.
Qed.

Lemma withOwnImages_role (m : MessageWithImages.t) :
  ChatCompletionMessage.Role (withOwnImages m) = MessageWithImages.Role m.
Proof. unfold withOwnImages. destruct (_ || _); reflexivity. Qed.

Lemma chatMessages_unfold (customRequest : CustomChatRequest.t) :
  chatMessages customRequest
  = processTopLevelImages (CustomChatRequest.Images customRequest)
      (map withOwnImages (CustomChatRequest.Messages customRequest)).
Proof. unfold chatMessages. rewrite processMessageImages_map. reflexivity. Qed.

(** The content parts of a message that carries its own images and is the
    target of the top-level images. *)
Lemma target_parts (images : list string) (m : MessageWithImages.t) :
  isUser (MessageWithImages.Role m) = true ->
  withTopLevelImages images (withOwnImages m)
  = ChatCompletionMessage.mk (MessageWithImages.Role m) ""
      (TextPart (MessageWithImages.Content m)
       :: imageParts (List.filter nonEmpty (MessageWithImages.Images m))
       ++ imageParts images).
Proof.
  intros Hrole. unfold withTopLevelImages, withOwnImages. rewrite Hrole.
  cbn [negb orb].
  destruct (MessageWithImages.Images m) as [|img imgs]; reflexivity.
Qed.

(** C4, as amended: when the last message with role user (scanning from the
    end) is the target of a non-empty top-level image list without empty
    entries, its content parts are one text part holding its original text,
    then one image part per NON-EMPTY message-scoped image in original order,
    then one image part per top-level image in original order; its plain
    text is cleared and the other messages are as the message-scoped step
    left them.  When no message has role user the top-level images are
    dropped: every message keeps its text and gets no content part. *)
Theorem C4_content_part_order (customRequest : CustomChatRequest.t) :
  (forall i m,
      CustomChatRequest.Messages customRequest !! i = Some m ->
      isUser (MessageWithImages.Role m) = true ->
      (forall j m', i < j ->
         CustomChatRequest.Messages customRequest !! j = Some m' ->
         isUser (MessageWithImages.Role m') = false) ->
      CustomChatRequest.Images customRequest <> [] ->
      Forall (fun img => img <> "") (CustomChatRequest.Images customRequest) ->
      chatMessages customRequest !! i
      = Some (ChatCompletionMessage.mk (MessageWithImages.Role m) ""
                (TextPart (MessageWithImages.Content m)
                 :: imageParts
                      (List.filter nonEmpty (MessageWithImages.Images m))
                 ++ imageParts (CustomChatRequest.Images customRequest)))
      /\ forall j, j <> i ->
           chatMessages customRequest !! j
           = option_map withOwnImages
               (CustomChatRequest.Messages customRequest !! j))
  /\ ((forall m, In m (CustomChatRequest.Messages customRequest) ->
                 isUser (MessageWithImages.Role m) = false) ->
      chatMessages customRequest
      = map convert (CustomChatRequest.Messages customRequest)).
Proof.
  rewrite chatMessages_unfold. split.
  - intros i m Hm Hrole Hlater Himg _.
    assert (Hu : map withOwnImages (CustomChatRequest.Messages customRequest)
                 !! i = Some (withOwnImages m))
      by (rewrite lookup_map, Hm; reflexivity).
    rewrite (processTopLevelImages_target _ _ i (withOwnImages m) Himg Hu).
    + split.
      * rewrite list_lookup_insert_eq by (apply lookup_lt_is_Some; eauto).
        rewrite target_parts by exact Hrole. reflexivity.
      * intros j Hj. rewrite list_lookup_insert_ne by congruence.
        apply lookup_map.
    + rewrite withOwnImages_role. exact Hrole.
    + intros j u Hij Hj. rewrite lookup_map in Hj.
      destruct (CustomChatRequest.Messages customRequest !! j) as [m'|] eqn:E;
        [|discriminate].
      injection Hj as <-. rewrite withOwnImages_role. eapply Hlater; eauto.
  - intros Hall. rewrite processTopLevelImages_no_user.
    + apply map_ext_in. intros m Hm. unfold withOwnImages.
      rewrite (Hall m Hm). reflexivity.
    + intros j u Hj. rewrite lookup_map in Hj.
      destruct (CustomChatRequest.Messages customRequest !! j) as [m'|] eqn:E;
        [|discriminate].
      injection Hj as <-. rewrite withOwnImages_role. apply Hall.
      apply list_elem_of_In. eapply list_elem_of_lookup_2. exact E.
Qed.

Definition sampleRequest : CustomChatRequest.t :=
  CustomChatRequest.mk "gpt-4o"
    [MessageWithImages.mk "system" "be brief" [];
     MessageWithImages.mk "user" "hi" [""; "iVBORw0KGgo"]]
    None ["/9j/4AAQ"].

Lemma C4_content_part_order_witness :
  chatMessages sampleRequest !! 1
  = Some (ChatCompletionMessage.mk "user" ""
            [TextPart "hi"; ImagePart "data:image/png;base64,iVBORw0KGgo";
             ImagePart "data:image/jpeg;base64,/9j/4AAQ"]).
Proof.
  apply (proj1 (C4_content_part_order sampleRequest) 1
           (MessageWithImages.mk "user" "hi" [""; "iVBORw0KGgo"])).
  - reflexivity.
  - reflexivity.
  - intros [|[|j]] m' Hj Hm'; [lia | lia | discriminate Hm'].
  - discriminate.
  - repeat constructor; discriminate.
Defined.

(** The content parts as C4 states them: one image part per message-scoped
    image, empty or not. *)
Definition partsAsClaimed (text : string) (ownImages topImages : list string)
  : list ChatMessagePart.t :=
  TextPart text :: imageParts ownImages ++ imageParts topImages.

(** C4 as stated fails: a user message with two images of its own, the first
    one empty, and one top-level image ends with three content parts, not
    with the four of "one part per image". *)
Lemma C4_counterexample :
  exists msg,
    chatMessages sampleRequest !! 1 = Some msg
    /\ length (ChatCompletionMessage.MultiContent msg) = 3
    /\ length (partsAsClaimed "hi" [""; "iVBORw0KGgo"] ["/9j/4AAQ"]) = 4
    /\ ChatCompletionMessage.MultiContent msg
       <> partsAsClaimed "hi" [""; "iVBORw0KGgo"] ["/9j/4AAQ"].
Proof.
  eexists. split; [vm_compute; reflexivity|].
  split; [reflexivity|]. split; [reflexivity|].
  vm_compute. discriminate.
Qed.

(** The two sibling paths skip an empty image: the message-scoped images of
    [/api/chat] and the images of [/api/generate]. *)
Lemma own_images_skip_empty (m : MessageWithImages.t) :
  isUser (MessageWithImages.Role m) = true ->
  MessageWithImages.Images m <> [] ->
  ChatCompletionMessage.MultiContent (withOwnImages m)
  = TextPart (MessageWithImages.Content m)
    :: imageParts (List.filter nonEmpty (MessageWithImages.Images m)).
Proof.
  intros Hrole Himg. unfold withOwnImages. rewrite Hrole.
  destruct (MessageWithImages.Images m); [congruence | reflexivity].
Qed.

Lemma generate_images_skip_empty (prompt systemPrompt : string)
    (images : list string) :
  images <> [] ->
  last (generateMessages prompt systemPrompt images)
  = Some (ChatCompletionMessage.mk ChatMessageRoleUser ""
            (TextPart prompt :: imageParts (List.filter nonEmpty images))).
Proof.
  intros Himg. unfold generateMessages, appendImages.
  destruct images as [|img images]; [congruence|].
  cbn [length Nat.ltb Nat.leb]. cbv zeta. rewrite skip_empty_fold.
  destruct (negb (String.eqb systemPrompt "")); reflexivity.
Qed.

(** C7, at the failing input: an empty entry in the top-level image list of
    [/api/chat] is not skipped; an image part with an empty URL is sent. *)
Theorem C7_top_level_empty_image_not_skipped :
  chatMessages
    (CustomChatRequest.mk "gpt-4o" [MessageWithImages.mk "user" "hi" []]
       None [""])
  = [ChatCompletionMessage.mk "user" "" [TextPart "hi"; ImagePart ""]].
Proof. vm_compute. reflexivity. Qed.

(** ** The stream translator *)

(** The event carries at least one choice. *)
Definition hasChoice (response : ChatCompletionStreamResponse.t) : Prop :=
  ChatCompletionStreamResponse.Choices response <> [].

(** The text of the first choice's delta. *)
Definition deltaContent (response : ChatCompletionStreamResponse.t) : string :=
  match ChatCompletionStreamResponse.Choices response with
  | choice0 :: _ =>
      ChatCompletionStreamChoiceDelta.Content
        (ChatCompletionStreamChoice.Delta choice0)
  | [] => ""
  end.

(** The finish reason an event lets the handler observe: the one of its
    first choice, when it is not empty. *)
Definition observedFinishReason (response : ChatCompletionStreamResponse.t)
  : option string :=
  match ChatCompletionStreamResponse.Choices response with
  | choice0 :: _ =>
      if String.eqb (ChatCompletionStreamChoice.FinishReason choice0) ""
      then None
      else Some (ChatCompletionStreamChoice.FinishReason choice0)
  | [] => None
  end.

(** The last finish reason observed across the events, ["stop"] when none
    was. *)
Definition terminalFinishReason
    (events : list ChatCompletionStreamResponse.t) : string :=
  default "stop" (last (omap observedFinishReason events)).

(** The two streaming loops differ in the lines they build only. *)
Section StreamLoop.
Variable now : nat -> string.
Variable chunk : string -> string -> string -> Envelope.
Variable final : string -> string -> string -> Envelope.

Fixpoint streamLoop (fullModelName : string)
    (pending : list ChatCompletionStreamResponse.t) (ending : StreamEnd)
    (lastFinishReason : string) (w : list Envelope) : HandlerResult :=
  match pending with
  | [] =>
      match ending with
      | EOF =>
          Streamed
            (w ++ [final fullModelName (now (length w))
                     (if String.eqb lastFinishReason "" then "stop"
                      else lastFinishReason)])
      | StreamError err => Streamed (w ++ [streamErrorLine err])
      end
  | response :: pending =>
      match ChatCompletionStreamResponse.Choices response with
      | [] => Panicked w
      | choice0 :: _ =>
          streamLoop fullModelName pending ending
            (rememberFinishReason lastFinishReason response)
            (w ++ [chunk fullModelName (now (length w))
                     (ChatCompletionStreamChoiceDelta.Content
                        (ChatCompletionStreamChoice.Delta choice0))])
      end
  end.

(** The lines for the events, the first one written as line [k]. *)
Fixpoint chunksFrom (fullModelName : string) (k : nat)
    (events : list ChatCompletionStreamResponse.t) : list Envelope :=
  match events with
  | [] => []
  | response :: events =>
      chunk fullModelName (now k) (deltaContent response)
      :: chunksFrom fullModelName (S k) events
  end.

(** The line that ends a stream whose events were all translated. *)
Definition lastLine (fullModelName : string) (k : nat)
    (lastFinishReason : string) (ending : StreamEnd) : Envelope :=
  match ending with
  | EOF =>
      final fullModelName (now k)
        (if String.eqb lastFinishReason "" then "stop" else lastFinishReason)
  | StreamError err => streamErrorLine err
  end.

Lemma chunksFrom_length (fullModelName : string) (k : nat)
    (events : list ChatCompletionStreamResponse.t) :
  length (chunksFrom fullModelName k events) = length events.
Proof.
  revert k. induction events as [|r events IH]; intros k; simpl;
    [reflexivity | now rewrite IH].
Qed.

Lemma streamLoop_complete (fullModelName : string)
    (events : list ChatCompletionStreamResponse.t) (ending : StreamEnd)
    (lastFinishReason : string) (w : list Envelope) :
  Forall hasChoice events ->
  streamLoop fullModelName events ending lastFinishReason w
  = Streamed
      (w ++ chunksFrom fullModelName (length w) events
         ++ [lastLine fullModelName (length w + length events)
               (fold_left rememberFinishReason events lastFinishReason)
               ending]).
Proof.
  intros Hall. revert lastFinishReason w.
  induction Hall as [|r events Hr Hall IH]; intros lastFinishReason w.
  - cbn [streamLoop chunksFrom fold_left length app lastLine].
    rewrite Nat.add_0_r. destruct ending; reflexivity.
  - cbn [streamLoop chunksFrom fold_left length]. unfold hasChoice in Hr.
    unfold deltaContent.
    destruct (ChatCompletionStreamResponse.Choices r) as [|c0 cs] eqn:Ec;
      [congruence|].
    rewrite IH. rewrite length_app. cbn [length].
    rewrite <- app_assoc. cbn [app].
    replace (length w + 1) with (S (length w)) by lia.
    replace (S (length w) + length events)
      with (length w + S (length events)) by lia.
    reflexivity.
Qed.

Lemma streamLoop_panic (fullModelName : string)
    (before after : list ChatCompletionStreamResponse.t)
    (response : ChatCompletionStreamResponse.t) (ending : StreamEnd)
    (lastFinishReason : string) (w : list Envelope) :
  Forall hasChoice before ->
  ChatCompletionStreamResponse.Choices response = [] ->
  streamLoop fullModelName (before ++ response :: after) ending
    lastFinishReason w
  = Panicked (w ++ chunksFrom fullModelName (length w) before).
Proof.
  intros Hall Hr. revert lastFinishReason w.
  induction Hall as [|r events Hr' Hall IH]; intros lastFinishReason w.
  - cbn [app streamLoop chunksFrom]. rewrite Hr, app_nil_r. reflexivity.
  - cbn [app streamLoop chunksFrom]. unfold hasChoice in Hr'.
    unfold deltaContent.
    destruct (ChatCompletionStreamResponse.Choices r) as [|c0 cs] eqn:Ec;
      [congruence|].
    rewrite IH. rewrite length_app. cbn [length].
    rewrite <- app_assoc. cbn [app].
    replace (length w + 1) with (S (length w)) by lia. reflexivity.
Qed.
End StreamLoop.

Lemma chatStreamLoop_streamLoop (now : nat -> string) (fullModelName : string)
    (pending : list ChatCompletionStreamResponse.t) (ending : StreamEnd)
    (lastFinishReason : string) (w : list Envelope) :
  chatStreamLoop now fullModelName pending ending lastFinishReason w
  = streamLoop now chatChunk chatFinal fullModelName pending ending
      lastFinishReason w.
Proof.
  revert lastFinishReason w.
  induction pending as [|r pending IH]; intros lastFinishReason w.
  - reflexivity.
  - cbn [chatStreamLoop streamLoop].
    destruct (ChatCompletionStreamResponse.Choices r); [reflexivity|].
    apply IH.
Qed.

Lemma generateStreamLoop_streamLoop (now : nat -> string)
    (fullModelName : string)
    (pending : list ChatCompletionStreamResponse.t) (ending : StreamEnd)
    (lastFinishReason : string) (w : list Envelope) :
  generateStreamLoop now fullModelName pending ending lastFinishReason w
  = streamLoop now generateChunk generateFinal fullModelName pending ending
      lastFinishReason w.
Proof.
  revert lastFinishReason w.
  induction pending as [|r pending IH]; intros lastFinishReason w.
  - reflexivity.
  - cbn [generateStreamLoop streamLoop].
    destruct (ChatCompletionStreamResponse.Choices r); [reflexivity|].
    apply IH.
Qed.

(** The finish reason remembered at the end of the stream is the last one
    observed. *)
Lemma remembered_last_observed
    (events : list ChatCompletionStreamResponse.t) (lastFinishReason : string) :
  fold_left rememberFinishReason events lastFinishReason
  = default lastFinishReason (last (omap observedFinishReason events)).
Proof.
  induction events as [|r events IH] using rev_ind; [reflexivity|].
  rewrite fold_left_app, omap_app, IH. cbn [fold_left omap list_omap].
  unfold rememberFinishReason, observedFinishReason.
  destruct (ChatCompletionStreamResponse.Choices r) as [|c0 cs].
  - rewrite app_nil_r. reflexivity.
  - destruct (String.eqb (ChatCompletionStreamChoice.FinishReason c0) "");
      cbn [negb].
    + rewrite app_nil_r. reflexivity.
    + rewrite last_snoc. reflexivity.
Qed.

Lemma observed_nonempty (events : list ChatCompletionStreamResponse.t)
    (reason : string) :
  last (omap observedFinishReason events) = Some reason -> reason <> "".
Proof.
  intros H. apply last_Some in H as [l' H].
  assert (Hin : reason ∈ omap observedFinishReason events)
    by (rewrite H; apply elem_of_app; right; apply list_elem_of_singleton;
        reflexivity).
  apply list_elem_of_omap in Hin as (r & _ & Hr).
  unfold observedFinishReason in Hr.
  destruct (ChatCompletionStreamResponse.Choices r) as [|c0 cs];
    [discriminate|].
  destruct (String.eqb (ChatCompletionStreamChoice.FinishReason c0) "") eqn:E;
    [discriminate|].
  injection Hr as <-. apply String.eqb_neq. exact E.
Qed.

Lemma terminal_reason (events : list ChatCompletionStreamResponse.t) :
  (if String.eqb (fold_left rememberFinishReason events "") "" then "stop"
   else fold_left rememberFinishReason events "")
  = terminalFinishReason events.
Proof.
  rewrite remembered_last_observed. unfold terminalFinishReason.
  destruct (last (omap observedFinishReason events)) as [reason|] eqn:E.
  - cbn [from_option id]. apply observed_nonempty in E.
    apply String.eqb_neq in E. rewrite E. reflexivity.
  - reflexivity.
Qed.

Lemma chunksFrom_In (now : nat -> string)
    (chunk : string -> string -> string -> Envelope) (fullModelName : string)
    (k : nat) (events : list ChatCompletionStreamResponse.t) (line : Envelope) :
  In line (chunksFrom now chunk fullModelName k events) ->
  exists createdAt content, line = chunk fullModelName createdAt content.
Proof.
  revert k. induction events as [|r events IH]; intros k Hin; [destruct Hin|].
  destruct Hin as [<-|Hin]; [eauto | eapply IH; exact Hin].
Qed.

(** An event with a text delta, and one without choices. *)
Definition textEvent (content finishReason : string)
  : ChatCompletionStreamResponse.t :=
  ChatCompletionStreamResponse.mk
    [ChatCompletionStreamChoice.mk
       (ChatCompletionStreamChoiceDelta.mk content) finishReason].

Definition emptyChoicesEvent : ChatCompletionStreamResponse.t :=
  ChatCompletionStreamResponse.mk [].

(** A provider with a cache whose upstream answers every streaming call with
    the given stream. *)
Definition streamingProvider (stream : ChatCompletionStream.t)
  : OpenrouterProvider.t :=
  OpenrouterProvider.mk
    (Client.mk (Ok ["openai/gpt-4o"]) (fun _ => Error "not streaming")
       (fun _ => Ok stream))
    ["openai/gpt-4o"].

Definition chatRequest : CustomChatRequest.t :=
  CustomChatRequest.mk "gpt-4o" [MessageWithImages.mk "user" "hi" []] None [].

Definition generateRequest : GenerateRequest.t :=
  GenerateRequest.mk "gpt-4o" "hi" "" None [].

(** When every event carries a choice, both handlers write one line per
    event, in order, and one more line: the final line after [io.EOF], the
    error line after another error. *)
Lemma stream_lines_when_every_event_has_a_choice (now : nat -> string)
    (fullModelName : string)
    (events : list ChatCompletionStreamResponse.t) (ending : StreamEnd) :
  Forall hasChoice events ->
  chatStreamLoop now fullModelName events ending "" []
  = Streamed
      (chunksFrom now chatChunk fullModelName 0 events
       ++ [lastLine now chatFinal fullModelName (length events)
             (fold_left rememberFinishReason events "") ending])
  /\ generateStreamLoop now fullModelName events ending "" []
     = Streamed
         (chunksFrom now generateChunk fullModelName 0 events
          ++ [lastLine now generateFinal fullModelName (length events)
                (fold_left rememberFinishReason events "") ending]).
Proof.
  intros Hall. split.
  - rewrite chatStreamLoop_streamLoop.
    rewrite streamLoop_complete by exact Hall. reflexivity.
  - rewrite generateStreamLoop_streamLoop.
    rewrite streamLoop_complete by exact Hall. reflexivity.
Qed.

(** C10, at the failing input: an event without choices makes both handlers
    panic on [response.Choices[0]], before any line is written for it. *)
Theorem C10_empty_choices_event_panics (now : nat -> string) :
  chatHandler now
    (streamingProvider (ChatCompletionStream.mk [emptyChoicesEvent] EOF))
    chatRequest
  = (Panicked [],
     streamingProvider (ChatCompletionStream.mk [emptyChoicesEvent] EOF))
  /\ generateHandler now
       (streamingProvider (ChatCompletionStream.mk [emptyChoicesEvent] EOF))
       generateRequest
     = (Panicked [],
        streamingProvider (ChatCompletionStream.mk [emptyChoicesEvent] EOF)).
Proof. split; reflexivity. Qed.

(** C2, at the failing input: the upstream delivers three events and then
    end-of-stream, the second event without choices; the handlers write one
    line, not four, and no final line.  With a transport error after two
    such events they write one line, not three, and no error line. *)
Theorem C2_line_count_broken_by_empty_choices (now : nat -> string) :
  (chatHandler now
     (streamingProvider
        (ChatCompletionStream.mk
           [textEvent "Hel" ""; emptyChoicesEvent; textEvent "lo" "stop"] EOF))
     chatRequest).1
  = Panicked [chatChunk "openai/gpt-4o" (now 0) "Hel"]
  /\ (generateHandler now
        (streamingProvider
           (ChatCompletionStream.mk
              [textEvent "Hel" ""; emptyChoicesEvent; textEvent "lo" "stop"]
              EOF))
        generateRequest).1
     = Panicked [generateChunk "openai/gpt-4o" (now 0) "Hel"]
  /\ (chatHandler now
        (streamingProvider
           (ChatCompletionStream.mk [textEvent "Hel" ""; emptyChoicesEvent]
              (StreamError "connection reset")))
        chatRequest).1
     = Panicked [chatChunk "openai/gpt-4o" (now 0) "Hel"].
Proof. repeat split; reflexivity. Qed.

(** The statistics of the final line of [/api/chat] are zero. *)
Definition chatStatisticsZero (line : Envelope) : Prop :=
  line !! "total_duration" = Some (JNumber 0)
  /\ line !! "load_duration" = Some (JNumber 0)
  /\ line !! "prompt_eval_count" = Some (JNumber 0)
  /\ line !! "eval_count" = Some (JNumber 0)
  /\ line !! "eval_duration" = Some (JNumber 0).

(** The statistics of the final line of [/api/generate] are the fixed
    placeholders of the source. *)
Definition generateStatisticsPlaceholders (line : Envelope) : Prop :=
  line !! "context" = Some (JArray [JNumber 1; JNumber 2; JNumber 3])
  /\ line !! "total_duration" = Some (JNumber 1000000000)
  /\ line !! "load_duration" = Some (JNumber 5000000)
  /\ line !! "prompt_eval_count" = Some (JNumber 20)
  /\ line !! "prompt_eval_duration" = Some (JNumber 200000000)
  /\ line !! "eval_count" = Some (JNumber 100)
  /\ line !! "eval_duration" = Some (JNumber 800000000).

(** An intermediate line: not done, and no finish reason under either
    key. *)
Definition intermediateLine (line : Envelope) : Prop :=
  line !! "done" = Some (JBool false)
  /\ line !! "finish_reason" = None
  /\ line !! "done_reason" = None.

(** C3, as amended: when every event carries a choice and the stream ends
    with end-of-stream, each handler writes one intermediate line per event
    (done=false, no finish reason) and then exactly one final line with
    done=true, empty text and the last finish reason observed ("stop" if
    none was).  The statistics of the final line are zero in /api/chat and
    the fixed placeholders of the source in /api/generate. *)
Theorem C3_terminal_envelope (now : nat -> string) (fullModelName : string)
    (events : list ChatCompletionStreamResponse.t) :
  Forall hasChoice events ->
  (exists chunks final,
      chatStreamLoop now fullModelName events EOF "" []
      = Streamed (chunks ++ [final])
      /\ length chunks = length events
      /\ Forall intermediateLine chunks
      /\ final !! "done" = Some (JBool true)
      /\ final !! "message"
         = Some (JObject (<[ "role" := JString "assistant" ]>
                          {[ "content" := JString "" ]}))
      /\ final !! "finish_reason"
         = Some (JString (terminalFinishReason events))
      /\ chatStatisticsZero final)
  /\ (exists chunks final,
         generateStreamLoop now fullModelName events EOF "" []
         = Streamed (chunks ++ [final])
         /\ length chunks = length events
         /\ Forall intermediateLine chunks
         /\ final !! "done" = Some (JBool true)
         /\ final !! "response" = Some (JString "")
         /\ final !! "done_reason"
            = Some (JString (terminalFinishReason events))
         /\ generateStatisticsPlaceholders final).
Proof.
  intros Hall.
  destruct (stream_lines_when_every_event_has_a_choice now fullModelName
              events EOF Hall) as [Hchat Hgen].
  split.
  - eexists _, _. split; [exact Hchat|].
    split; [apply chunksFrom_length|]. split.
    + apply List.Forall_forall. intros line Hin.
      apply chunksFrom_In in Hin as (t & c & ->).
      repeat split; vm_compute; reflexivity.
    + cbn [lastLine]. rewrite terminal_reason.
      unfold chatStatisticsZero. repeat split; vm_compute; reflexivity.
  - eexists _, _. split; [exact Hgen|].
    split; [apply chunksFrom_length|]. split.
    + apply List.Forall_forall. intros line Hin.
      apply chunksFrom_In in Hin as (t & c & ->).
      repeat split; vm_compute; reflexivity.
    + cbn [lastLine]. rewrite terminal_reason.
      unfold generateStatisticsPlaceholders.
      repeat split; vm_compute; reflexivity.
Qed.

Lemma C3_terminal_envelope_witness :
  Forall hasChoice [textEvent "Hel" ""; textEvent "lo" "length"]
  /\ exists chunks final,
       chatStreamLoop (fun _ => "t") "openai/gpt-4o"
         [textEvent "Hel" ""; textEvent "lo" "length"] EOF "" []
       = Streamed (chunks ++ [final])
       /\ final !! "finish_reason" = Some (JString "length").
Proof.
  assert (H : Forall hasChoice [textEvent "Hel" ""; textEvent "lo" "length"])
    by (repeat constructor; discriminate).
  split; [exact H|].
  destruct (C3_terminal_envelope (fun _ => "t") "openai/gpt-4o"
              [textEvent "Hel" ""; textEvent "lo" "length"] H)
    as [(chunks & final & Hrun & _ & _ & _ & _ & Hreason & _) _].
  exists chunks, final. split; [exact Hrun | exact Hreason].
Defined.

(** C3 as stated fails: the final line of /api/generate carries fixed
    non-zero statistics, which come from no usage summary (the stream below
    has no event at all). *)
Lemma C3_counterexample :
  exists final,
    generateStreamLoop (fun _ => "t") "openai/gpt-4o" [] EOF "" []
    = Streamed [final]
    /\ final !! "done" = Some (JBool true)
    /\ final !! "eval_count" = Some (JNumber 100)
    /\ final !! "prompt_eval_count" = Some (JNumber 20)
    /\ final !! "total_duration" <> Some (JNumber 0).
Proof.
  eexists. split; [reflexivity|].
  repeat split; try (vm_compute; reflexivity). vm_compute. discriminate.
Qed.

(** * Further properties of the code *)

(** ** The image detector *)

(** X1: for every non-empty input the detector returns a well-formed data
    URL: non-empty, starting with data:image/, containing ;base64, and with
    no white space around it. *)
Theorem detector_output_is_data_url (input : string) :
  input <> "" ->
  formatImageForAPI input <> ""
  /\ strings.HasPrefix (formatImageForAPI input) "data:image/" = true
  /\ strings.Contains (formatImageForAPI input) ";base64," = true
  /\ trimmed (formatImageForAPI input).
Proof.
  intros Hne.
  assert (H : hasDataURLPrefix (formatImageForAPI input) = true
              /\ trimmed (formatImageForAPI input)).
  { rewrite (format_unfold _ Hne).
    destruct (hasDataURLPrefix (strings.TrimSpace input)) eqn:E.
    - split; [exact E | apply TrimSpace_trimmed].
    - destruct (detectorSpec_prefixed (strings.TrimSpace input))
        as [p [Hp ->]].
      split; [apply hasDataURLPrefix_prefixed; exact Hp|].
      apply trimmed_prefixed; [exact Hp | apply TrimSpace_trimmed]. }
  destruct H as [Hurl Ht].
  split; [apply hasDataURLPrefix_nonempty; exact Hurl|].
  unfold hasDataURLPrefix in Hurl. apply andb_prop in Hurl as [H1 H2].
  auto.
Qed.

Lemma detector_output_is_data_url_witness :
  "  UklGRiQAAABXRUJQ" <> ""
  /\ formatImageForAPI "  UklGRiQAAABXRUJQ" <> ""
  /\ strings.HasPrefix (formatImageForAPI "  UklGRiQAAABXRUJQ") "data:image/"
     = true
  /\ strings.Contains (formatImageForAPI "  UklGRiQAAABXRUJQ") ";base64,"
     = true
  /\ trimmed (formatImageForAPI "  UklGRiQAAABXRUJQ").
Proof.
  split; [discriminate|].
  apply (detector_output_is_data_url "  UklGRiQAAABXRUJQ"). discriminate.
Defined.

(** X2: input that is not empty but consists of white space only passes the
    emptiness check and comes back as a JPEG data URL without payload. *)
Theorem detector_blank_input_gives_bare_prefix (input : string) :
  input <> "" -> strings.TrimSpace input = "" ->
  formatImageForAPI input = "data:image/jpeg;base64,".
Proof.
  intros Hne Ht. rewrite (format_unfold _ Hne), Ht. reflexivity.
Qed.

Lemma detector_blank_input_gives_bare_prefix_witness :
  String "009" (String "010" " ") <> ""
  /\ strings.TrimSpace (String "009" (String "010" " ")) = ""
  /\ formatImageForAPI (String "009" (String "010" " "))
     = "data:image/jpeg;base64,".
Proof.
  split; [discriminate|]. split; [vm_compute; reflexivity|].
  apply (detector_blank_input_gives_bare_prefix
           (String "009" (String "010" " ")));
    [discriminate | vm_compute; reflexivity].
Defined.

(** X3: a string that starts with data:image/ but contains no ;base64, is
    not taken for a data URL: it is treated as a payload of unknown type and
    gets the JPEG prefix in front. *)
Theorem detector_data_prefix_without_base64_marker (input : string) :
  input <> "" ->
  strings.HasPrefix (strings.TrimSpace input) "data:image/" = true ->
  strings.Contains (strings.TrimSpace input) ";base64," = false ->
  formatImageForAPI input
  = "data:image/jpeg;base64," +:+ strings.TrimSpace input.
Proof.
  intros Hne Hpre Hcon. rewrite (format_unfold _ Hne).
  unfold hasDataURLPrefix. rewrite Hpre, Hcon. cbn [andb].
  unfold strings.HasPrefix in Hpre. apply prefix_split in Hpre as [r Hr].
  rewrite Hr. reflexivity.
Qed.

Lemma detector_data_prefix_without_base64_marker_witness :
  formatImageForAPI "data:image/png,iVBORw0KGgo"
  = "data:image/jpeg;base64,data:image/png,iVBORw0KGgo".
Proof.
  apply (detector_data_prefix_without_base64_marker
           "data:image/png,iVBORw0KGgo");
    [discriminate | vm_compute; reflexivity | vm_compute; reflexivity].
Defined.

(** ** Alias resolution *)

Lemma find_eqb_member (x : string) (names : list string) :
  In x names -> List.find (fun fullName => String.eqb fullName x) names = Some x.
Proof.
  induction names as [|n names IH]; intros Hin; [destruct Hin|].
  cbn [List.find]. destruct (String.eqb_spec n x) as [->|Hne];
    [reflexivity|].
  destruct Hin as [->|Hin]; [congruence | apply IH; exact Hin].
Qed.

Lemma resolve_warm (o : OpenrouterProvider.t) (currentTime alias : string) :
  modelNames o <> [] ->
  GetFullModelName o currentTime alias
  = (Ok (match List.find (fun fullName => String.eqb fullName alias)
                 (modelNames o) with
         | Some fullName => fullName
         | None =>
             match List.find
                     (fun fullName => strings.HasSuffix fullName alias)
                     (modelNames o) with
             | Some fullName => fullName
             | None => alias
             end
         end), o).
Proof.
  intros Hne. unfold GetFullModelName.
  destruct (modelNames o) as [|n0 names] eqn:En; [congruence|].
  cbn [length Nat.eqb]. rewrite En.
  destruct (List.find _ (n0 :: names)); [reflexivity|].
  destruct (List.find _ (n0 :: names)); reflexivity.
Qed.

(** X4: against a non-empty cache resolution is idempotent: resolving the
    name a resolution returned gives that name again. *)
Theorem resolution_idempotent (o : OpenrouterProvider.t)
    (currentTime alias fullName : string) :
  modelNames o <> [] ->
  GetFullModelName o currentTime alias = (Ok fullName, o) ->
  GetFullModelName o currentTime fullName = (Ok fullName, o).
Proof.
  intros Hne H. rewrite (resolve_warm _ _ _ Hne) in H.
  rewrite (resolve_warm _ _ _ Hne).
  destruct (List.find (fun n => String.eqb n alias) (modelNames o))
    as [x|] eqn:Ex.
  - injection H as <-. apply List.find_some in Ex as [Hin _].
    rewrite (find_eqb_member _ _ Hin). reflexivity.
  - destruct (List.find (fun n => strings.HasSuffix n alias) (modelNames o))
      as [y|] eqn:Ey.
    + injection H as <-. apply List.find_some in Ey as [Hin _].
      rewrite (find_eqb_member _ _ Hin). reflexivity.
    + injection H as <-. rewrite Ex, Ey. reflexivity.
Qed.

Lemma resolution_idempotent_witness :
  GetFullModelName warmProvider "t" "anthropic/claude-sonnet-4"
  = (Ok "anthropic/claude-sonnet-4", warmProvider).
Proof.
  apply (resolution_idempotent warmProvider "t" "claude-sonnet-4");
    [discriminate | reflexivity].
Defined.

Lemma HasSuffix_empty (s : string) : strings.HasSuffix s "" = true.
Proof. apply HasSuffix_endsWith. exists s. symmetry. apply append_nil_r. Qed.

(** X5: an empty model name is not rejected: against a cache that does not
    hold the empty string it resolves to the first cached identifier. *)
Theorem empty_alias_resolves_to_first_entry (o : OpenrouterProvider.t)
    (currentTime first : string) (others : list string) :
  modelNames o = first :: others -> ~ In "" (modelNames o) ->
  GetFullModelName o currentTime "" = (Ok first, o).
Proof.
  intros Hnames Hnot. rewrite resolve_warm by (rewrite Hnames; discriminate).
  destruct (List.find (fun n => String.eqb n "") (modelNames o)) as [x|] eqn:Ex.
  - apply List.find_some in Ex as [Hin Hx]. apply String.eqb_eq in Hx.
    subst x. contradiction.
  - rewrite Hnames. cbn [List.find]. rewrite HasSuffix_empty. reflexivity.
Qed.

Lemma empty_alias_resolves_to_first_entry_witness :
  GetFullModelName warmProvider "t" "" = (Ok "openai/gpt-4o", warmProvider).
Proof.
  apply (empty_alias_resolves_to_first_entry warmProvider "t" "openai/gpt-4o"
           ["anthropic/claude-sonnet-4"; "x/claude-sonnet-4"]).
  - reflexivity.
  - cbn. intros [H|[H|[H|[]]]]; discriminate H.
Defined.

(** X6: with an empty cache a resolution first fetches the catalog; when the
    fetch succeeds the cache becomes the fetched list and the answer is the
    one a provider already holding that list gives; an empty fetched list
    leaves the cache empty and the alias passes through. *)
Theorem cold_resolution_fetches_then_resolves (o : OpenrouterProvider.t)
    (currentTime alias : string) (IDs : list string) :
  modelNames o = [] -> Client.ListModels (client o) = Ok IDs ->
  (GetFullModelName o currentTime alias).2
  = OpenrouterProvider.mk (client o) IDs
  /\ (IDs <> [] ->
      GetFullModelName o currentTime alias
      = GetFullModelName (OpenrouterProvider.mk (client o) IDs) currentTime
          alias)
  /\ (IDs = [] -> (GetFullModelName o currentTime alias).1 = Ok alias).
Proof.
  intros Hnames Hlist.
  assert (H : GetFullModelName o currentTime alias
              = (Ok (match List.find (fun n => String.eqb n alias) IDs with
                     | Some fullName => fullName
                     | None =>
                         match List.find
                                 (fun n => strings.HasSuffix n alias) IDs with
                         | Some fullName => fullName
                         | None => alias
                         end
                     end), OpenrouterProvider.mk (client o) IDs)).
  { unfold GetFullModelName. rewrite Hnames. cbn [length Nat.eqb].
    pose proof (GetModels_spec o currentTime) as HG. rewrite Hlist in HG.
    rewrite HG. cbn [modelNames].
    destruct (List.find _ IDs); [reflexivity|].
    destruct (List.find _ IDs); reflexivity. }
  rewrite H. split; [reflexivity|]. split.
  - intros Hne. rewrite resolve_warm by exact Hne. reflexivity.
  - intros ->. reflexivity.
Qed.

Definition freshProvider : OpenrouterProvider.t :=
  OpenrouterProvider.mk
    (Client.mk (Ok ["openai/gpt-4o"; "anthropic/claude-sonnet-4"])
       (fun _ => Error "unused") (fun _ => Error "unused"))
    [].

Lemma cold_resolution_fetches_then_resolves_witness :
  modelNames (GetFullModelName freshProvider "t" "gpt-4o").2
  = ["openai/gpt-4o"; "anthropic/claude-sonnet-4"]
  /\ (GetFullModelName freshProvider "t" "gpt-4o").1 = Ok "openai/gpt-4o".
Proof.
  destruct (cold_resolution_fetches_then_resolves freshProvider "t" "gpt-4o"
              ["openai/gpt-4o"; "anthropic/claude-sonnet-4"]
              eq_refl eq_refl) as (Hcache & Hwarm & _).
  split.
  - rewrite Hcache. reflexivity.
  - rewrite Hwarm by discriminate. reflexivity.
Defined.

(** ** The catalog: short names and the way back to identifiers *)

Lemma SplitSlash_nonempty (s : string) : SplitSlash s <> [].
Proof.
  destruct s as [|c s]; cbn [SplitSlash]; [discriminate|].
  destruct (Ascii.eqb c "/"); [discriminate|].
  destruct (SplitSlash s); discriminate.
Qed.

Lemma Contains_slash_cons (c : ascii) (s : string) :
  strings.Contains (String c s) "/"
  = Ascii.eqb c "/" || strings.Contains s "/".
Proof.
  cbn [strings.Contains String.prefix].
  destruct (ascii_dec "/" c) as [<-|Hne].
  - destruct s; reflexivity.
  - assert (E : Ascii.eqb c "/" = false)
      by (apply Ascii.eqb_neq; congruence).
    rewrite E. reflexivity.
Qed.

Lemma SplitSlash_single (s x : string) : SplitSlash s = [x] -> s = x.
Proof.
  revert x. induction s as [|c s IH]; intros x H; cbn [SplitSlash] in H.
  - congruence.
  - destruct (Ascii.eqb c "/").
    + pose proof (SplitSlash_nonempty s) as Hne.
      destruct (SplitSlash s); [congruence | discriminate H].
    + destruct (SplitSlash s) as [|part parts] eqn:E;
        [exfalso; eapply SplitSlash_nonempty; exact E|].
      injection H as <- ->. rewrite (IH part eq_refl). reflexivity.
Qed.

Lemma SplitSlash_no_slash (s : string) :
  strings.Contains s "/" = false -> SplitSlash s = [s].
Proof.
  induction s as [|c s IH]; intros H; [reflexivity|].
  rewrite Contains_slash_cons in H. apply orb_false_elim in H as [Hc Hs].
  cbn [SplitSlash]. rewrite Hc, (IH Hs). reflexivity.
Qed.

(** The last piece of an identifier has no slash, and the identifier is that
    piece, or something, a slash and that piece. *)
Lemma last_piece (s : string) :
  strings.Contains (List.last (SplitSlash s) "") "/" = false
  /\ (s = List.last (SplitSlash s) ""
      \/ exists q, s = q +:+ "/" +:+ List.last (SplitSlash s) "").
Proof.
  induction s as [|c s [IHn IHs]]; [split; [reflexivity | left; reflexivity]|].
  cbn [SplitSlash]. destruct (Ascii.eqb c "/") eqn:Ec.
  - apply Ascii.eqb_eq in Ec. subst c.
    destruct (SplitSlash s) as [|part parts] eqn:E;
      [exfalso; eapply SplitSlash_nonempty; exact E|].
    change (List.last ("" :: part :: parts) "")
      with (List.last (part :: parts) "").
    split; [exact IHn|]. right.
    destruct IHs as [Hs|[q Hq]].
    + exists "". rewrite Hs at 1. reflexivity.
    + exists (String "/" q). rewrite Hq at 1. reflexivity.
  - destruct (SplitSlash s) as [|part parts] eqn:E;
      [exfalso; eapply SplitSlash_nonempty; exact E|].
    destruct parts as [|part' parts].
    + cbn [List.last] in *. split.
      * rewrite Contains_slash_cons, Ec, IHn. reflexivity.
      * left. rewrite (SplitSlash_single _ _ E). reflexivity.
    + change (List.last (String c part :: part' :: parts) "")
        with (List.last (part :: part' :: parts) "").
      split; [exact IHn|]. right.
      destruct IHs as [Hs|[q Hq]].
      * exfalso. rewrite Hs in E at 1.
        rewrite (SplitSlash_no_slash _ IHn) in E. discriminate E.
      * exists (String c q). rewrite Hq at 1. reflexivity.
Qed.

(** X7: the name (and model and digest) of a catalog entry is the piece of
    the upstream identifier after its last slash: it contains no slash, and
    the identifier is the name itself or ends with a slash followed by the
    name. *)
Theorem model_name_is_last_path_piece (currentTime ID : string) :
  Model.Model (modelOf currentTime ID) = Model.Name (modelOf currentTime ID)
  /\ Model.Digest (modelOf currentTime ID)
     = Model.Name (modelOf currentTime ID)
  /\ strings.Contains (Model.Name (modelOf currentTime ID)) "/" = false
  /\ (ID = Model.Name (modelOf currentTime ID)
      \/ exists q, ID = q +:+ "/" +:+ Model.Name (modelOf currentTime ID)).
Proof.
  split; [reflexivity|]. split; [reflexivity|]. apply last_piece.
Qed.

Lemma ID_endsWith_name (currentTime ID : string) :
  endsWith ID (Model.Name (modelOf currentTime ID)).
Proof.
  destruct (last_piece ID) as [_ [H|[q H]]].
  - exists "". exact H.
  - exists (q +:+ "/"). rewrite append_assoc. exact H.
Qed.

(** X8: the names [GetModels] lists resolve back into the catalog: after a
    successful fetch, resolving the listed name of a fetched identifier
    succeeds with a fetched identifier that ends with that name, and with
    the identifier itself when no other fetched identifier ends with the
    name. *)
Theorem listed_name_resolves_into_catalog (o : OpenrouterProvider.t)
    (currentTime currentTime' ID : string) (IDs : list string) :
  Client.ListModels (client o) = Ok IDs -> In ID IDs ->
  exists fullName,
    GetFullModelName (GetModels o currentTime).2 currentTime'
      (Model.Name (modelOf currentTime ID))
    = (Ok fullName, (GetModels o currentTime).2)
    /\ In fullName IDs
    /\ endsWith fullName (Model.Name (modelOf currentTime ID))
    /\ ((forall other, In other IDs ->
           endsWith other (Model.Name (modelOf currentTime ID)) ->
           other = ID) ->
        fullName = ID).
Proof.
  intros Hlist Hin.
  pose proof (GetModels_spec o currentTime) as HG. rewrite Hlist in HG.
  rewrite HG. cbn [snd].
  set (name := Model.Name (modelOf currentTime ID)).
  set (o' := OpenrouterProvider.mk (client o) IDs).
  assert (Hne : modelNames o' <> [])
    by (cbn; intros ->; destruct Hin).
  rewrite (resolve_warm o' currentTime' name Hne). cbn [modelNames o'].
  destruct (List.find (fun n => String.eqb n name) IDs) as [x|] eqn:Ex.
  - apply List.find_some in Ex as [Hx Heq]. apply String.eqb_eq in Heq.
    subst x. exists name. split; [reflexivity|]. split; [exact Hx|].
    split; [exists ""; reflexivity|].
    intros Huniq. apply Huniq; [exact Hx | exists ""; reflexivity].
  - destruct (List.find (fun n => strings.HasSuffix n name) IDs)
      as [y|] eqn:Ey.
    + apply List.find_some in Ey as [Hy Hsuf]. cbv beta in Hsuf.
      apply HasSuffix_endsWith in Hsuf.
      exists y. split; [reflexivity|]. split; [exact Hy|].
      split; [exact Hsuf|]. intros Huniq. apply Huniq; assumption.
    + exfalso. pose proof (List.find_none _ _ Ey _ Hin) as H. cbv beta in H.
      pose proof (ID_endsWith_name currentTime ID) as Hs.
      apply HasSuffix_endsWith in Hs. fold name in Hs. congruence.
Qed.

Lemma listed_name_resolves_into_catalog_witness :
  exists fullName,
    GetFullModelName (GetModels freshProvider "t").2 "t'"
      (Model.Name (modelOf "t" "anthropic/claude-sonnet-4"))
    = (Ok fullName, (GetModels freshProvider "t").2)
    /\ In fullName ["openai/gpt-4o"; "anthropic/claude-sonnet-4"]
    /\ endsWith fullName (Model.Name (modelOf "t" "anthropic/claude-sonnet-4"))
    /\ ((forall other,
           In other ["openai/gpt-4o"; "anthropic/claude-sonnet-4"] ->
           endsWith other
             (Model.Name (modelOf "t" "anthropic/claude-sonnet-4")) ->
           other = "anthropic/claude-sonnet-4") ->
        fullName = "anthropic/claude-sonnet-4").
Proof.
  apply (listed_name_resolves_into_catalog freshProvider "t" "t'"
           "anthropic/claude-sonnet-4"
           ["openai/gpt-4o"; "anthropic/claude-sonnet-4"]).
  - reflexivity.
  - right. left. reflexivity.
Defined.

(** ** [/api/tags] and the model filter *)

(** A model is listed when the filter is empty or holds its short name. *)
Definition listed (modelFilter : gset string) (m : Model.t) : Prop :=
  modelFilter = ∅ \/ Model.Model m ∈ modelFilter.

#[local] Instance listed_dec (modelFilter : gset string) (m : Model.t) :
  Decision (listed modelFilter m).
Proof. unfold listed. apply _. Defined.

Lemma skip_unlisted (modelFilter : gset string) (m : Model.t) :
  Nat.ltb 0 (size modelFilter)
  && negb (bool_decide (Model.Model m ∈ modelFilter))
  = negb (bool_decide (listed modelFilter m)).
Proof.
  unfold listed.
  destruct (decide (modelFilter = ∅)) as [->|Hne].
  - rewrite size_empty. cbn [Nat.ltb Nat.leb andb].
    rewrite bool_decide_eq_true_2 by (left; reflexivity). reflexivity.
  - assert (Hsize : size modelFilter <> 0).
    { intros H. apply Hne. apply leibniz_equiv. apply size_empty_iff.
      exact H. }
    assert (Hlt : Nat.ltb 0 (size modelFilter) = true)
      by (apply Nat.ltb_lt; lia).
    rewrite Hlt. cbn [andb]. f_equal. apply bool_decide_ext. tauto.
Qed.

Lemma tags_fold (modelFilter : gset string) (models : list Model.t)
    (newModels : list JSON) :
  fold_left
    (fun newModels m =>
       if Nat.ltb 0 (size modelFilter)
          && negb (bool_decide (Model.Model m ∈ modelFilter))
       then newModels
       else newModels ++ [tagEntry m])
    models newModels
  = newModels ++ map tagEntry (filter (listed modelFilter) models).
Proof.
  revert newModels. induction models as [|m models IH]; intros newModels.
  - cbn. rewrite app_nil_r. reflexivity.
  - cbn [fold_left]. rewrite IH, skip_unlisted.
    destruct (decide (listed modelFilter m)) as [Hl|Hl].
    + rewrite bool_decide_eq_true_2 by exact Hl. cbn [negb].
      rewrite filter_cons_True by exact Hl. cbn [map].
      rewrite <- app_assoc. reflexivity.
    + rewrite bool_decide_eq_false_2 by exact Hl. cbn [negb].
      rewrite filter_cons_False by exact Hl. reflexivity.
Qed.

Lemma tagsHandler_spec (o : OpenrouterProvider.t)
    (modelFilter : gset string) (currentTime : string) :
  match Client.ListModels (client o) with
  | Error err =>
      tagsHandler o modelFilter currentTime
      = (RespondJSON StatusInternalServerError (errorBody err), o)
  | Ok IDs =>
      tagsHandler o modelFilter currentTime
      = (RespondJSON StatusOK
           {[ "models" :=
                JArray (map tagEntry
                          (filter (listed modelFilter)
                             (map (modelOf currentTime) IDs))) ]},
         OpenrouterProvider.mk (client o) IDs)
      /\ (modelFilter = ∅ ->
          filter (listed modelFilter) (map (modelOf currentTime) IDs)
          = map (modelOf currentTime) IDs)
  end.
Proof.
  unfold tagsHandler. pose proof (GetModels_spec o currentTime) as HG.
  destruct (Client.ListModels (client o)) as [IDs|err]; rewrite HG.
  - split.
    + cbv zeta. rewrite tags_fold. reflexivity.
    + intros ->. clear HG.
      induction (map (modelOf currentTime) IDs) as [|m l IH]; [reflexivity|].
      rewrite filter_cons_True by (left; reflexivity). rewrite IH.
      reflexivity.
  - reflexivity.
Qed.

(** X9: [/api/tags] answers a failed catalog fetch with 500 and leaves the
    provider as it was; after a successful fetch it answers 200, the cache is
    the fetched list, and the listing holds, in catalog order, one entry for
    each fetched identifier whose short name is in the filter -- for every
    fetched identifier when the filter is empty. *)
Theorem tags_lists_filtered_catalog (o : OpenrouterProvider.t)
    (modelFilter : gset string) (currentTime : string) :
  match Client.ListModels (client o) with
  | Error err =>
      tagsHandler o modelFilter currentTime
      = (RespondJSON StatusInternalServerError (errorBody err), o)
  | Ok IDs =>
      tagsHandler o modelFilter currentTime
      = (RespondJSON StatusOK
           {[ "models" :=
                JArray (map tagEntry
                          (filter (listed modelFilter)
                             (map (modelOf currentTime) IDs))) ]},
         OpenrouterProvider.mk (client o) IDs)
      /\ (modelFilter = ∅ ->
          filter (listed modelFilter) (map (modelOf currentTime) IDs)
          = map (modelOf currentTime) IDs)
  end.
Proof. apply tagsHandler_spec. Qed.

(** X10: the filter is matched against short names, which hold no slash: a
    non-empty filter whose entries all contain a slash (fully qualified
    identifiers, say) lists no model at all. *)
Theorem tags_filter_of_qualified_names_lists_nothing
    (o : OpenrouterProvider.t) (modelFilter : gset string)
    (currentTime : string) (IDs : list string) :
  Client.ListModels (client o) = Ok IDs ->
  modelFilter <> ∅ ->
  (forall entry, entry ∈ modelFilter -> strings.Contains entry "/" = true) ->
  (tagsHandler o modelFilter currentTime).1
  = RespondJSON StatusOK {[ "models" := JArray [] ]}.
Proof.
  intros Hlist Hne Hall.
  pose proof (tagsHandler_spec o modelFilter currentTime) as H.
  rewrite Hlist in H. destruct H as [H _]. rewrite H. cbn [fst].
  replace (filter (listed modelFilter) (map (modelOf currentTime) IDs))
    with (@nil Model.t); [reflexivity|].
  symmetry. clear Hlist H. induction IDs as [|ID IDs IH]; [reflexivity|].
  cbn [map]. rewrite filter_cons_False; [exact IH|].
  intros [Hempty|Hin]; [contradiction|].
  apply Hall in Hin. destruct (last_piece ID) as [Hno _].
  change (Model.Model (modelOf currentTime ID))
    with (List.last (SplitSlash ID) "") in Hin.
  congruence.
Qed.

Lemma tags_filter_of_qualified_names_lists_nothing_witness :
  (tagsHandler freshProvider {[ "openai/gpt-4o" ]} "t").1
  = RespondJSON StatusOK {[ "models" := JArray [] ]}.
Proof.
  apply (tags_filter_of_qualified_names_lists_nothing freshProvider
           {[ "openai/gpt-4o" ]} "t"
           ["openai/gpt-4o"; "anthropic/claude-sonnet-4"]).
  - reflexivity.
  - intros H. assert (Hin : "openai/gpt-4o" ∈ (∅ : gset string))
      by (rewrite <- H; apply elem_of_singleton; reflexivity).
    apply not_elem_of_empty in Hin. exact Hin.
  - intros entry Hin. apply elem_of_singleton in Hin. subst entry.
    vm_compute. reflexivity.
Defined.

Lemma filter_fold (lines : list string) (acc : gset string) (x : string) :
  x ∈ fold_left
        (fun (filter : gset string) text =>
           let line := strings.TrimSpace text in
           if negb (String.eqb line "") then {[ line ]} ∪ filter
           else filter)
        lines acc
  <-> x ∈ acc
      \/ (x <> "" /\ exists text, In text lines /\ strings.TrimSpace text = x).
Proof.
  revert acc. induction lines as [|text lines IH]; intros acc.
  - cbn. split; [auto|]. intros [H|(_ & t & [] & _)]. exact H.
  - cbn [fold_left]. rewrite IH. cbv zeta.
    destruct (String.eqb_spec (strings.TrimSpace text) "") as [E|E];
      cbn [negb].
    + split.
      * intros [H|(Hx & t & Ht & Heq)]; [left; exact H|].
        right. split; [exact Hx|]. exists t. split; [right; exact Ht|exact Heq].
      * intros [H|(Hx & t & [<-|Ht] & Heq)]; [left; exact H | congruence |].
        right. split; [exact Hx|]. exists t. split; assumption.
    + rewrite elem_of_union, elem_of_singleton. split.
      * intros [[->|H]|(Hx & t & Ht & Heq)].
        -- right. split; [exact E|]. exists text. split; [left|]; reflexivity.
        -- left. exact H.
        -- right. split; [exact Hx|]. exists t.
           split; [right; exact Ht | exact Heq].
      * intros [H|(Hx & t & [<-|Ht] & Heq)].
        -- left. right. exact H.
        -- left. left. symmetry. exact Heq.
        -- right. split; [exact Hx|]. exists t. split; assumption.
Qed.

Lemma loaded_filter_lines (lines : list string) :
  exists filter,
    loadModelFilter (Opens lines None) = inl filter
    /\ forall x,
         x ∈ filter
         <-> (x <> ""
              /\ exists text, In text lines /\ strings.TrimSpace text = x).
Proof.
  eexists. split; [reflexivity|].
  intros x. rewrite filter_fold. split; [|auto].
  intros [H|H]; [|exact H]. apply not_elem_of_empty in H. destruct H.
Qed.

(** X11: when the filter file is read without error, the loaded filter holds
    exactly the non-empty white-space-trimmed lines: blank lines add
    nothing, and every entry is non-empty and carries no white space around
    it.  An error of the scanner discards what was read. *)
Theorem loaded_filter_is_trimmed_nonblank_lines (lines : list string) :
  (exists filter,
      loadModelFilter (Opens lines None) = inl filter
      /\ (forall x,
            x ∈ filter
            <-> (x <> ""
                 /\ exists text, In text lines /\ strings.TrimSpace text = x))
      /\ (forall x, x ∈ filter -> x <> "" /\ trimmed x))
  /\ (forall err, loadModelFilter (Opens lines (Some err)) = inr err).
Proof.
  split; [|reflexivity].
  eexists. split; [reflexivity|].
  assert (H : forall x,
             x ∈ fold_left
                   (fun (filter : gset string) text =>
                      let line := strings.TrimSpace text in
                      if negb (String.eqb line "") then {[ line ]} ∪ filter
                      else filter)
                   lines ∅
             <-> (x <> ""
                  /\ exists text, In text lines
                                  /\ strings.TrimSpace text = x)).
  { intros x. rewrite filter_fold. split; [|auto].
    intros [H|H]; [|exact H]. apply not_elem_of_empty in H. destruct H. }
  split; [exact H|].
  intros x Hx. apply H in Hx as (Hne & text & _ & <-).
  split; [exact Hne | apply TrimSpace_trimmed].
Qed.

(** X12: the server starts without filtering when the filter file does not
    exist, and just so when the file holds blank lines only; it does not
    start on any other error of opening or reading the file. *)
Theorem startup_filter_policy (err : GoError.t) (lines : list string) :
  (GoError.isNotExist err = true -> startupFilter (OpenFails err) = Some ∅)
  /\ (GoError.isNotExist err = false ->
      startupFilter (OpenFails err) = None
      /\ startupFilter (Opens lines (Some err)) = None)
  /\ ((forall text, In text lines -> strings.TrimSpace text = "") ->
      startupFilter (Opens lines None) = Some ∅).
Proof.
  split; [|split].
  - intros H. unfold startupFilter. cbn. rewrite H. reflexivity.
  - intros H. unfold startupFilter. cbn. rewrite H. split; reflexivity.
  - intros Hblank. unfold startupFilter.
    destruct (loaded_filter_lines lines) as (filter & Hload & Hmem).
    rewrite Hload. f_equal. apply leibniz_equiv. intros x. rewrite Hmem.
    split.
    + intros (Hne & text & Hin & Heq). rewrite (Hblank _ Hin) in Heq.
      congruence.
    + intros H. apply not_elem_of_empty in H. destruct H.
Qed.

Lemma startup_filter_policy_witness :
  startupFilter (OpenFails (GoError.mk "no such file" true)) = Some ∅
  /\ startupFilter (OpenFails (GoError.mk "permission denied" false)) = None
  /\ startupFilter (Opens [""; "  "] None) = Some ∅.
Proof.
  split; [|split].
  - apply (proj1 (startup_filter_policy (GoError.mk "no such file" true) [])).
    reflexivity.
  - apply (proj1 (proj2 (startup_filter_policy
                           (GoError.mk "permission denied" false) []))).
    reflexivity.
  - apply (proj2 (proj2 (startup_filter_policy (GoError.mk "unused" false)
                           [""; "  "]))).
    intros text H. cbn in H.
    destruct H as [<-|[<-|[]]]; vm_compute; reflexivity.
Defined.

(** ** [/api/show] *)

(** X13: [/api/show] answers 400 exactly when the request has no name or an
    empty one; otherwise it answers 200 with the stub details, which depend
    on neither the name nor the provider: the model is never looked up. *)
Theorem show_needs_a_name_and_never_looks_it_up (o : OpenrouterProvider.t)
    (request : gmap string string) (currentTime : string) :
  match request !! "name" with
  | None | Some "" =>
      showHandler o request currentTime
      = RespondJSON StatusBadRequest (errorBody "Model name is required")
  | Some _ =>
      exists details,
        showHandler o request currentTime = RespondJSON StatusOK details
        /\ forall o' name',
             GetModelDetails o' currentTime name' = Ok details
  end.
Proof.
  unfold showHandler.
  destruct (request !! "name") as [name|]; [|reflexivity].
  cbn [default from_option id].
  destruct name as [|c name]; [reflexivity|].
  cbn [String.eqb]. eexists. split; reflexivity.
Qed.

(** ** The message normaliser, further *)

Lemma map_insert_same {A B : Type} (f : A -> B) (l : list A) (i : nat)
    (x y : A) :
  l !! i = Some y -> f x = f y -> map f (<[i := x]> l) = map f l.
Proof.
  revert i. induction l as [|a l IH]; intros [|i] Hy Hf; cbn in *;
    try discriminate.
  - injection Hy as ->. rewrite Hf. reflexivity.
  - f_equal. apply IH; assumption.
Qed.

Lemma lastUser_is_user (messages : list ChatCompletionMessage.t) (n i : nat) :
  lastUserMsgIndexFrom messages n = Some i ->
  exists u, messages !! i = Some u
            /\ isUser (ChatCompletionMessage.Role u) = true.
Proof.
  induction n as [|n IH]; intros H; [discriminate|].
  cbn [lastUserMsgIndexFrom] in H.
  destruct (messages !! n) as [m|] eqn:Em; [|apply IH; exact H].
  destruct (String.eqb (ChatCompletionMessage.Role m) ChatMessageRoleUser)
    eqn:Er; [|apply IH; exact H].
  injection H as <-. exists m. split; [exact Em | exact Er].
Qed.

(** What the top-level step does, in every case: nothing, or the target
    message replaced. *)
Lemma processTopLevelImages_cases (images : list string)
    (messages : list ChatCompletionMessage.t) :
  processTopLevelImages images messages = messages
  \/ exists i u,
       messages !! i = Some u
       /\ isUser (ChatCompletionMessage.Role u) = true
       /\ processTopLevelImages images messages
          = <[i := withTopLevelImages images u]> messages.
Proof.
  unfold processTopLevelImages.
  destruct (Nat.ltb 0 (length images) && Nat.ltb 0 (length messages));
    [|left; reflexivity].
  unfold lastUserMsgIndex.
  destruct (lastUserMsgIndexFrom messages (length messages)) as [i|] eqn:Ei;
    [|left; reflexivity].
  destruct (lastUser_is_user _ _ _ Ei) as (u & Hu & Hrole).
  right. exists i, u. split; [exact Hu|]. split; [exact Hrole|].
  rewrite Hu. cbv zeta. rewrite all_images_fold. reflexivity.
Qed.

(** X14: normalisation keeps the number, the order and the roles of the
    messages. *)
Theorem normalisation_keeps_roles (customRequest : CustomChatRequest.t) :
  map ChatCompletionMessage.Role (chatMessages customRequest)
  = map MessageWithImages.Role (CustomChatRequest.Messages customRequest).
Proof.
  rewrite chatMessages_unfold.
  assert (H : map ChatCompletionMessage.Role
                (map withOwnImages (CustomChatRequest.Messages customRequest))
              = map MessageWithImages.Role
                  (CustomChatRequest.Messages customRequest)).
  { rewrite map_map. apply map_ext. apply withOwnImages_role. }
  destruct (processTopLevelImages_cases
              (CustomChatRequest.Images customRequest)
              (map withOwnImages (CustomChatRequest.Messages customRequest)))
    as [->|(i & u & Hu & _ & ->)]; [exact H|].
  rewrite (map_insert_same _ _ _ _ _ Hu) by reflexivity. exact H.
Qed.

(** An image part, whatever its URL. *)
Definition isImagePart (part : ChatMessagePart.t) : Prop :=
  exists url, part = ImagePart url.

(** A message is sent either as plain text without content parts, or with
    its text cleared and content parts made of one text part followed by
    image parts only. *)
Definition wellShaped (msg : ChatCompletionMessage.t) : Prop :=
  ChatCompletionMessage.MultiContent msg = []
  \/ (ChatCompletionMessage.Content msg = ""
      /\ exists text parts,
           ChatCompletionMessage.MultiContent msg = TextPart text :: parts
           /\ Forall isImagePart parts).

Lemma imageParts_are_images (images : list string) :
  Forall isImagePart (imageParts images).
Proof.
  induction images as [|img images IH]; constructor; [|exact IH].
  eexists. reflexivity.
Qed.

Lemma withOwnImages_wellShaped (m : MessageWithImages.t) :
  wellShaped (withOwnImages m).
Proof.
  unfold withOwnImages. destruct (_ || _); [left; reflexivity|].
  right. split; [reflexivity|]. eexists _, _. split; [reflexivity|].
  apply imageParts_are_images.
Qed.

Lemma withTopLevelImages_wellShaped (images : list string)
    (u : ChatCompletionMessage.t) :
  wellShaped u -> wellShaped (withTopLevelImages images u).
Proof.
  intros Hu. right. split; [reflexivity|]. cbn [withTopLevelImages
    ChatCompletionMessage.MultiContent].
  destruct Hu as [Hnil|(_ & text & parts & Hparts & Himg)].
  - rewrite Hnil. cbn [length Nat.ltb Nat.leb app].
    eexists _, _. split; [reflexivity | apply imageParts_are_images].
  - rewrite Hparts. cbn [length Nat.ltb Nat.leb app].
    eexists _, _. split; [reflexivity|].
    apply Forall_app. split; [exact Himg | apply imageParts_are_images].
Qed.

(** X15: every message [/api/chat] sends upstream is either plain text with
    no content part, or has its plain text cleared and content parts that
    start with one text part and continue with image parts only: text and
    content parts are never both populated. *)
Theorem normalised_messages_are_well_shaped
    (customRequest : CustomChatRequest.t) :
  Forall wellShaped (chatMessages customRequest).
Proof.
  rewrite chatMessages_unfold.
  assert (H : Forall wellShaped
                (map withOwnImages (CustomChatRequest.Messages customRequest))).
  { apply List.Forall_forall. intros msg Hin.
    apply in_map_iff in Hin as (m & <- & _). apply withOwnImages_wellShaped. }
  destruct (processTopLevelImages_cases
              (CustomChatRequest.Images customRequest)
              (map withOwnImages (CustomChatRequest.Messages customRequest)))
    as [->|(i & u & Hu & _ & ->)]; [exact H|].
  apply Forall_insert; [exact H|].
  apply withTopLevelImages_wellShaped.
  eapply (proj1 (List.Forall_forall _ _) H).
  apply list_elem_of_In. eapply list_elem_of_lookup_2. exact Hu.
Qed.

(** X16: a message whose role is not user comes out as plain text, whatever
    images it or the request carries: images are attached to user messages
    only. *)
Theorem non_user_messages_stay_plain (customRequest : CustomChatRequest.t)
    (i : nat) (m : MessageWithImages.t) :
  CustomChatRequest.Messages customRequest !! i = Some m ->
  isUser (MessageWithImages.Role m) = false ->
  chatMessages customRequest !! i = Some (convert m).
Proof.
  intros Hm Hrole. rewrite chatMessages_unfold.
  assert (H : map withOwnImages (CustomChatRequest.Messages customRequest)
              !! i = Some (convert m)).
  { rewrite lookup_map, Hm. cbn. unfold withOwnImages. rewrite Hrole.
    reflexivity. }
  destruct (processTopLevelImages_cases
              (CustomChatRequest.Images customRequest)
              (map withOwnImages (CustomChatRequest.Messages customRequest)))
    as [->|(j & u & Hu & Huser & ->)]; [exact H|].
  rewrite list_lookup_insert_ne; [exact H|].
  intros ->. rewrite H in Hu. injection Hu as <-.
  change (isUser (MessageWithImages.Role m) = true) in Huser. congruence.
Qed.

Lemma non_user_messages_stay_plain_witness :
  chatMessages
    (CustomChatRequest.mk "gpt-4o"
       [MessageWithImages.mk "assistant" "look" ["iVBORw0KGgo"]]
       None ["/9j/4AAQ"])
  !! 0
  = Some (ChatCompletionMessage.mk "assistant" "look" []).
Proof.
  apply (non_user_messages_stay_plain
           (CustomChatRequest.mk "gpt-4o"
              [MessageWithImages.mk "assistant" "look" ["iVBORw0KGgo"]]
              None ["/9j/4AAQ"])
           0 (MessageWithImages.mk "assistant" "look" ["iVBORw0KGgo"]));
    reflexivity.
Defined.

(** X17: a request without any image, neither in a message nor at top
    level, is passed on as it came: every message keeps its role and text
    and gets no content part. *)
Theorem text_only_request_is_unchanged (customRequest : CustomChatRequest.t) :
  (forall m, In m (CustomChatRequest.Messages customRequest) ->
             MessageWithImages.Images m = []) ->
  CustomChatRequest.Images customRequest = [] ->
  chatMessages customRequest
  = map convert (CustomChatRequest.Messages customRequest).
Proof.
  intros Hown Htop. rewrite chatMessages_unfold, Htop.
  unfold processTopLevelImages. cbn [length Nat.ltb Nat.leb andb].
  apply map_ext_in. intros m Hm. unfold withOwnImages.
  rewrite (Hown m Hm). cbn [length Nat.eqb]. rewrite orb_true_r.
  reflexivity.
Qed.

Lemma text_only_request_is_unchanged_witness :
  chatMessages
    (CustomChatRequest.mk "gpt-4o"
       [MessageWithImages.mk "system" "be brief" [];
        MessageWithImages.mk "user" "hi" []] (Some false) [])
  = [ChatCompletionMessage.mk "system" "be brief" [];
     ChatCompletionMessage.mk "user" "hi" []].
Proof.
  apply (text_only_request_is_unchanged
           (CustomChatRequest.mk "gpt-4o"
              [MessageWithImages.mk "system" "be brief" [];
               MessageWithImages.mk "user" "hi" []] (Some false) [])).
  - intros m H. cbn in H. destruct H as [<-|[<-|[]]]; reflexivity.
  - reflexivity.
Defined.

(** ** The messages of [/api/generate] *)

(** X18: [Generate] and [GenerateStream] send the system prompt, when there
    is one, as a first message, and then exactly one user message: the
    prompt as plain text when the request has no image; otherwise a message
    with cleared text whose content parts are the prompt and one image part
    per non-empty image -- the prompt alone when every image is empty. *)
Theorem generate_messages_shape (prompt systemPrompt : string)
    (images : list string) :
  generateMessages prompt systemPrompt images
  = (if String.eqb systemPrompt "" then []
     else [ChatCompletionMessage.mk ChatMessageRoleSystem systemPrompt []])
    ++ [match images with
        | [] => ChatCompletionMessage.mk ChatMessageRoleUser prompt []
        | _ :: _ =>
            ChatCompletionMessage.mk ChatMessageRoleUser ""
              (TextPart prompt :: imageParts (List.filter nonEmpty images))
        end].
Proof.
  unfold generateMessages, appendImages.
  destruct images as [|img images].
  - cbn [length Nat.ltb Nat.leb].
    destruct (String.eqb systemPrompt ""); reflexivity.
  - cbn [length Nat.ltb Nat.leb]. cbv zeta. rewrite skip_empty_fold.
    destruct (String.eqb systemPrompt ""); reflexivity.
Qed.

(** ** The stream translator, further *)

Lemma chunksFrom_lookup (now : nat -> string)
    (chunk : string -> string -> string -> Envelope) (fullModelName : string)
    (events : list ChatCompletionStreamResponse.t) (k0 k : nat)
    (response : ChatCompletionStreamResponse.t) :
  events !! k = Some response ->
  chunksFrom now chunk fullModelName k0 events !! k
  = Some (chunk fullModelName (now (k0 + k)) (deltaContent response)).
Proof.
  revert k0 k. induction events as [|r events IH]; intros k0 [|k] H;
    cbn in H; try discriminate.
  - injection H as ->. cbn. rewrite Nat.add_0_r. reflexivity.
  - cbn [chunksFrom]. cbn [lookup list_lookup].
    change (chunksFrom now chunk fullModelName (S k0) events !! k
            = Some (chunk fullModelName (now (k0 + S k))
                      (deltaContent response))).
    replace (k0 + S k) with (S k0 + k) by lia. apply (IH (S k0) k H).
Qed.

(** The lines a translated stream consists of. *)
Definition translated (now : nat -> string)
    (chunk final : string -> string -> string -> Envelope)
    (fullModelName : string)
    (events : list ChatCompletionStreamResponse.t) (ending : StreamEnd)
    (lines : list Envelope) : Prop :=
  length lines = S (length events)
  /\ (forall k response,
        events !! k = Some response ->
        lines !! k
        = Some (chunk fullModelName (now k) (deltaContent response)))
  /\ match ending with
     | EOF =>
         lines !! length events
         = Some (final fullModelName (now (length events))
                   (terminalFinishReason events))
     | StreamError msg =>
         lines !! length events = Some (streamErrorLine msg)
     end.

Lemma streamLoop_translated (now : nat -> string)
    (chunk final : string -> string -> string -> Envelope)
    (fullModelName : string)
    (events : list ChatCompletionStreamResponse.t) (ending : StreamEnd) :
  Forall hasChoice events ->
  exists lines,
    streamLoop now chunk final fullModelName events ending "" []
    = Streamed lines
    /\ translated now chunk final fullModelName events ending lines.
Proof.
  intros Hall. eexists. split; [apply streamLoop_complete; exact Hall|].
  cbn [app length Nat.add]. split; [|split].
  - rewrite length_app, chunksFrom_length. cbn [length]. lia.
  - intros k response Hk.
    rewrite lookup_app_l
      by (rewrite chunksFrom_length; apply lookup_lt_is_Some; eauto).
    apply (chunksFrom_lookup now chunk fullModelName events 0 k). exact Hk.
  - assert (Hlast : forall line,
               (chunksFrom now chunk fullModelName 0 events ++ [line])
               !! length events = Some line).
    { intros line. apply list_lookup_middle. symmetry.
      apply chunksFrom_length. }
    destruct ending as [|msg]; cbn [lastLine]; rewrite Hlast;
      [rewrite terminal_reason|]; reflexivity.
Qed.

(** X19: when every event of the upstream stream carries a choice, each
    streaming handler writes, for a stream of n events, n+1 lines: line k
    is the chunk for event k, holding the delta text of its first choice, in
    the order of the events; the last line is the final envelope with the
    last finish reason observed when the stream ends with end-of-stream, and
    the line {"error": "Stream error: " + message} when it ends with another
    error. *)
Theorem stream_translation_in_order (now : nat -> string)
    (fullModelName : string)
    (events : list ChatCompletionStreamResponse.t) (ending : StreamEnd) :
  Forall hasChoice events ->
  (exists lines,
      chatStreamLoop now fullModelName events ending "" [] = Streamed lines
      /\ translated now chatChunk chatFinal fullModelName events ending lines)
  /\ (exists lines,
         generateStreamLoop now fullModelName events ending "" []
         = Streamed lines
         /\ translated now generateChunk generateFinal fullModelName events
              ending lines).
Proof.
  intros Hall. split.
  - rewrite chatStreamLoop_streamLoop. apply streamLoop_translated.
    exact Hall.
  - rewrite generateStreamLoop_streamLoop. apply streamLoop_translated.
    exact Hall.
Qed.

Lemma stream_translation_in_order_witness :
  exists lines,
    chatStreamLoop (fun _ => "t") "openai/gpt-4o"
      [textEvent "Hel" ""; textEvent "lo" "stop"]
      (StreamError "connection reset") "" []
    = Streamed lines
    /\ translated (fun _ => "t") chatChunk chatFinal "openai/gpt-4o"
         [textEvent "Hel" ""; textEvent "lo" "stop"]
         (StreamError "connection reset") lines.
Proof.
  apply (stream_translation_in_order (fun _ => "t") "openai/gpt-4o"
           [textEvent "Hel" ""; textEvent "lo" "stop"]
           (StreamError "connection reset")).
  repeat constructor; discriminate.
Defined.

(** ** Non-streaming answers *)

(** X20: when streaming is switched off and the upstream answers without any
    choice, both handlers respond 500 "No response from model": the first
    choice is not read. *)
Theorem no_choice_is_a_server_error (now : nat -> string)
    (o o' : OpenrouterProvider.t) (fullModelName : string)
    (response : ChatCompletionResponse.t) :
  ChatCompletionResponse.Choices response = [] ->
  (forall customRequest,
      CustomChatRequest.Stream customRequest = Some false ->
      GetFullModelName o (now 0) (CustomChatRequest.Model customRequest)
      = (Ok fullModelName, o') ->
      Chat o' (chatMessages customRequest) fullModelName = Ok response ->
      chatHandler now o customRequest
      = (RespondJSON StatusInternalServerError
           (errorBody "No response from model"), o'))
  /\ (forall request,
         GenerateRequest.Stream request = Some false ->
         GetFullModelName o (now 0) (GenerateRequest.Model request)
         = (Ok fullModelName, o') ->
         Generate o' (GenerateRequest.Prompt request) fullModelName
           (GenerateRequest.System request) (GenerateRequest.Images request)
         = Ok response ->
         generateHandler now o request
         = (RespondJSON StatusInternalServerError
              (errorBody "No response from model"), o')).
Proof.
  intros Hnone. split.
  - intros req Hs Hres Hcall. unfold chatHandler. cbv zeta.
    rewrite Hs. cbn [streamRequestedOf negb]. rewrite Hres, Hcall, Hnone.
    reflexivity.
  - intros req Hs Hres Hcall. unfold generateHandler. cbv zeta.
    rewrite Hs, Hres. cbn [streamRequestedOf negb]. rewrite Hcall, Hnone.
    reflexivity.
Qed.

(** A provider with a cache whose upstream answers every completion call
    with the given response. *)
Definition answeringProvider (response : ChatCompletionResponse.t)
  : OpenrouterProvider.t :=
  OpenrouterProvider.mk
    (Client.mk (Ok ["openai/gpt-4o"]) (fun _ => Ok response)
       (fun _ => Error "not a stream"))
    ["openai/gpt-4o"].

Definition emptyResponse : ChatCompletionResponse.t :=
  ChatCompletionResponse.mk [] (Usage.mk 0 0 0).

Lemma no_choice_is_a_server_error_witness :
  generateHandler (fun _ => "t") (answeringProvider emptyResponse)
    (GenerateRequest.mk "gpt-4o" "hi" "" (Some false) [])
  = (RespondJSON 500 (errorBody "No response from model"),
     answeringProvider emptyResponse).
Proof.
  apply (proj2 (no_choice_is_a_server_error (fun _ => "t")
                  (answeringProvider emptyResponse)
                  (answeringProvider emptyResponse) "openai/gpt-4o"
                  emptyResponse eq_refl));
    reflexivity.
Defined.

(** The text under ["content"] of the ["message"] object of a line. *)
Definition messageContent (line : Envelope) : option string :=
  match line !! "message" with
  | Some (JObject message) =>
      match message !! "content" with
      | Some (JString content) => Some content
      | _ => None
      end
  | _ => None
  end.

(** X21: when streaming is switched off and the upstream answers with at
    least one choice, both handlers respond 200 with one object that is
    done, names the resolved model, carries the text of the FIRST choice
    (under message.content, resp. response) and that choice's finish reason,
    "stop" when it is empty; further choices are ignored. *)
Theorem non_streaming_answer_uses_first_choice (now : nat -> string)
    (o o' : OpenrouterProvider.t) (fullModelName : string)
    (response : ChatCompletionResponse.t) (choice0 : ChatCompletionChoice.t)
    (others : list ChatCompletionChoice.t) :
  ChatCompletionResponse.Choices response = choice0 :: others ->
  (forall customRequest,
      CustomChatRequest.Stream customRequest = Some false ->
      GetFullModelName o (now 0) (CustomChatRequest.Model customRequest)
      = (Ok fullModelName, o') ->
      Chat o' (chatMessages customRequest) fullModelName = Ok response ->
      exists body,
        chatHandler now o customRequest = (RespondJSON StatusOK body, o')
        /\ body !! "done" = Some (JBool true)
        /\ body !! "model" = Some (JString fullModelName)
        /\ messageContent body
           = Some (ChatCompletionMessage.Content
                     (ChatCompletionChoice.Message choice0))
        /\ body !! "finish_reason"
           = Some (JString
                     (if String.eqb (ChatCompletionChoice.FinishReason choice0)
                           ""
                      then "stop"
                      else ChatCompletionChoice.FinishReason choice0)))
  /\ (forall request,
         GenerateRequest.Stream request = Some false ->
         GetFullModelName o (now 0) (GenerateRequest.Model request)
         = (Ok fullModelName, o') ->
         Generate o' (GenerateRequest.Prompt request) fullModelName
           (GenerateRequest.System request) (GenerateRequest.Images request)
         = Ok response ->
         exists body,
           generateHandler now o request = (RespondJSON StatusOK body, o')
           /\ body !! "done" = Some (JBool true)
           /\ body !! "model" = Some (JString fullModelName)
           /\ body !! "response"
              = Some (JString (ChatCompletionMessage.Content
                                 (ChatCompletionChoice.Message choice0)))
           /\ body !! "done_reason"
              = Some (JString
                        (if String.eqb
                              (ChatCompletionChoice.FinishReason choice0) ""
                         then "stop"
                         else ChatCompletionChoice.FinishReason choice0))).
Proof.
  intros Hsome.
  assert (Hcontent : forall s : string,
             (if negb (String.eqb s "") then s else "") = s).
  { intros s. destruct (String.eqb_spec s ""); [subst|]; reflexivity. }
  split.
  - intros req Hs Hres Hcall. unfold chatHandler. cbv zeta.
    rewrite Hs. cbn [streamRequestedOf negb]. rewrite Hres, Hcall, Hsome.
    eexists. split; [reflexivity|]. unfold chatResponse, messageContent.
    rewrite Hsome. cbn [length Nat.ltb Nat.leb andb]. rewrite Hcontent.
    repeat split; try (vm_compute; reflexivity).
    destruct (String.eqb (ChatCompletionChoice.FinishReason choice0) "");
      vm_compute; reflexivity.
  - intros req Hs Hres Hcall. unfold generateHandler. cbv zeta.
    rewrite Hs, Hres. cbn [streamRequestedOf negb]. rewrite Hcall, Hsome.
    eexists. split; [reflexivity|]. unfold generateResponse.
    rewrite Hsome. cbn [length Nat.ltb Nat.leb andb]. rewrite Hcontent.
    repeat split; try (vm_compute; reflexivity).
    destruct (String.eqb (ChatCompletionChoice.FinishReason choice0) "");
      vm_compute; reflexivity.
Qed.

Definition twoChoices : ChatCompletionResponse.t :=
  ChatCompletionResponse.mk
    [ChatCompletionChoice.mk (ChatCompletionMessage.mk "assistant" "Hello" [])
       "";
     ChatCompletionChoice.mk (ChatCompletionMessage.mk "assistant" "Bye" [])
       "length"]
    (Usage.mk 3 2 5).

Lemma non_streaming_answer_uses_first_choice_witness :
  exists body,
    chatHandler (fun _ => "t") (answeringProvider twoChoices)
      (CustomChatRequest.mk "gpt-4o" [MessageWithImages.mk "user" "hi" []]
         (Some false) [])
    = (RespondJSON StatusOK body, answeringProvider twoChoices)
    /\ body !! "done" = Some (JBool true)
    /\ body !! "model" = Some (JString "openai/gpt-4o")
    /\ messageContent body = Some "Hello"
    /\ body !! "finish_reason" = Some (JString "stop").
Proof.
  apply (proj1 (non_streaming_answer_uses_first_choice (fun _ => "t")
                  (answeringProvider twoChoices) (answeringProvider twoChoices)
                  "openai/gpt-4o" twoChoices _ _ eq_refl));
    reflexivity.
Defined.

(** X22: handling a chat or generate request never refreshes a cache that is
    not empty: whatever the request and the upstream do, the provider comes
    out of the handler as it went in. *)
Theorem handlers_keep_a_warm_cache (now : nat -> string)
    (o : OpenrouterProvider.t) :
  modelNames o <> [] ->
  (forall customRequest, (chatHandler now o customRequest).2 = o)
  /\ (forall request, (generateHandler now o request).2 = o).
Proof.
  intros Hne. split.
  - intros req. unfold chatHandler. cbv zeta.
    rewrite (resolve_warm o (now 0) _ Hne).
    destruct (negb _).
    + destruct (Chat _ _ _) as [response|err]; [|reflexivity].
      destruct (ChatCompletionResponse.Choices response); reflexivity.
    + destruct (ChatStream _ _ _); reflexivity.
  - intros req. unfold generateHandler. cbv zeta.
    rewrite (resolve_warm o (now 0) _ Hne).
    destruct (negb _).
    + destruct (Generate _ _ _ _ _) as [response|err]; [|reflexivity].
      destruct (ChatCompletionResponse.Choices response); reflexivity.
    + destruct (GenerateStream _ _ _ _ _); reflexivity.
Qed.

Lemma handlers_keep_a_warm_cache_witness :
  modelNames warmProvider <> []
  /\ (forall customRequest,
        (chatHandler (fun _ => "t") warmProvider customRequest).2
        = warmProvider)
  /\ (forall request,
        (generateHandler (fun _ => "t") warmProvider request).2
        = warmProvider).
Proof.
  split; [discriminate|].
  apply (handlers_keep_a_warm_cache (fun _ => "t") warmProvider).
  discriminate.
Defined.
